(** * The canteen dashboard script (static/js/custom.js), embedded in Rocq

    The script is a single class [Dashboard] whose methods read and write a
    handful of DOM elements and talk to JSON endpoints with [fetch].  (The
    stand-alone helper [fetchNotifications] at the top of the file is never
    called; it is embedded apart.)  The embedding has four layers:

    - [Js]: JSON values as the script sees them after [response.json()],
      with the coercions the script relies on (truthiness, [||], ToString,
      ToNumber for [count > 0], [parseInt], property access);
    - [Dom]: the elements the script addresses, one slot per element;
    - [Eff]: a reader/state/exception monad: the host (server answers,
      answers to [confirm], the clock) is read, the page is the state, and a
      JavaScript exception is a failure that keeps the state reached so far;
    - [Dashboard]: the methods, one definition per method, and the two timer
      mechanisms (the 300 ms search debounce and the 30 s refresh interval).

    Modelling conventions, stated once:
    - numbers are integers ([Z]): fractions, NaN and the infinities are not
      values of the model (a string may spell them, and is read as such);
      strings are sequences of code units below 256;
    - an [await] runs to completion before the next event is handled, so a
      method is a function from the page before to the page after;
    - Bootstrap's toast widget is outside the script: a toast is the element
      the script inserts in [#toast-container];
    - the slots of [Dom.t] are distinct elements;
    - an item id is pasted unescaped into an attribute selector: the id is
      read as the CSS tokenizer reads the inside of a string, and a
      malformed selector makes [querySelector] throw; an id that closes the
      string and goes on with selector syntax of its own can name any
      element of the page, which the slots cannot follow, and is run as a
      rejected selector ([Dom.attribute_selector], [Dashboard.querySelector]). *)

From Stdlib Require Import String Ascii List ZArith Lia Bool DecimalString.
Import ListNotations.
Local Open Scope string_scope.
Local Open Scope Z_scope.
Set Warnings "-register-all".

(* ===================================================================== *)
(** ** JavaScript values *)
(* ===================================================================== *)

Module Js.

Inductive value : Type :=
| Undefined
| Null
| Bool (b : bool)
| Num (n : Z)
| Str (s : string)
| Arr (items : list value)
| Obj (fields : list (string * value)).

(** Decimal spelling of an integer, as Number.prototype.toString gives it. *)
Definition dec (n : Z) : string := NilZero.string_of_int (Z.to_int n).

(** ToString.  Array.prototype.toString joins the elements with a comma and
    spells [null] and [undefined] elements as the empty string. *)
Fixpoint to_string (v : value) : string :=
  match v with
  | Undefined => "undefined"
  | Null => "null"
  | Bool true => "true"
  | Bool false => "false"
  | Num n => dec n
  | Str s => s
  | Arr items =>
      (fix join (l : list value) : string :=
         match l with
         | [] => EmptyString
         | x :: rest =>
             let sx := match x with
                       | Undefined | Null => EmptyString
                       | _ => to_string x
                       end in
             match rest with
             | [] => sx
             | _ :: _ => sx ++ "," ++ join rest
             end
         end) items
  | Obj _ => "[object Object]"
  end.

(** The conversion done by the [textContent] setter, whose type is a
    nullable DOMString: [null] and [undefined] clear the text. *)
Definition text_content (v : value) : string :=
  match v with
  | Undefined | Null => EmptyString
  | _ => to_string v
  end.

(** ToBoolean. *)
Definition truthy (v : value) : bool :=
  match v with
  | Undefined | Null => false
  | Bool b => b
  | Num n => negb (n =? 0)
  | Str s => negb (String.eqb s EmptyString)
  | Arr _ | Obj _ => true
  end.

(** [a || b]. *)
Definition or_else (a b : value) : value := if truthy a then a else b.

(** [v !== null] and [v === 0]. *)
Definition is_null (v : value) : bool :=
  match v with Null => true | _ => false end.

Definition is_zero (v : value) : bool :=
  match v with Num 0 => true | _ => false end.

(** *** Numeric literals in strings *)

Definition is_space (c : ascii) : bool :=
  match nat_of_ascii c with
  | 9%nat | 10%nat | 11%nat | 12%nat | 13%nat | 32%nat | 160%nat => true
  | _ => false
  end.

Definition digit_of (c : ascii) : option Z :=
  let n := Z.of_nat (nat_of_ascii c) in
  if (48 <=? n) && (n <=? 57) then Some (n - 48) else None.

Definition hex_digit_of (c : ascii) : option Z :=
  let n := Z.of_nat (nat_of_ascii c) in
  if (48 <=? n) && (n <=? 57) then Some (n - 48)
  else if (97 <=? n) && (n <=? 102) then Some (n - 87)
  else if (65 <=? n) && (n <=? 70) then Some (n - 55)
  else None.

Fixpoint skip_spaces (l : list ascii) : list ascii :=
  match l with
  | c :: rest => if is_space c then skip_spaces rest else l
  | [] => []
  end.

Definition trim (l : list ascii) : list ascii :=
  rev (skip_spaces (rev (skip_spaces l))).

(** Longest prefix of digits in the given radix: its value, how many digits
    it has, and what follows it. *)
Fixpoint digits_prefix (digit : ascii -> option Z) (radix : Z)
         (acc : Z) (count : nat) (l : list ascii) : Z * nat * list ascii :=
  match l with
  | c :: rest =>
      match digit c with
      | Some d => digits_prefix digit radix (acc * radix + d) (S count) rest
      | None => (acc, count, l)
      end
  | [] => (acc, count, [])
  end.

Definition split_sign (l : list ascii) : Z * list ascii :=
  match l with
  | c :: rest =>
      if Ascii.eqb c "-"%char then (-1, rest)
      else if Ascii.eqb c "+"%char then (1, rest)
      else (1, l)
  | [] => (1, [])
  end.

(** A number as a numeric literal spells it, before it is rounded to a
    double: NaN, an infinity, or [mantissa * 10 ^ exponent]. *)
Inductive number : Type :=
| NaN
| Infinite (negative : bool)
| Decimal (mantissa exponent : Z).

(** Whether the double nearest to the number is greater than 0.  The
    smallest positive double is [2 ^ -1074]; a positive number rounds to 0
    when it is at most [2 ^ -1075]. *)
Definition positive (n : number) : bool :=
  match n with
  | NaN => false
  | Infinite negative => negb negative
  | Decimal m e =>
      match e with
      | Zneg _ => 10 ^ (- e) <? m * 2 ^ 1075
      | _ => 0 <? m
      end
  end.

Definition digit_below (radix : Z) (c : ascii) : option Z :=
  match digit_of c with
  | Some d => if d <? radix then Some d else None
  | None => None
  end.

(** [0x], [0o] and [0b] literals: unsigned, at least one digit. *)
Definition non_decimal (l : list ascii) : option Z :=
  let whole digit radix rest :=
    match digits_prefix digit radix 0 0 rest with
    | (n, S _, []) => Some n
    | _ => None
    end in
  match l with
  | z :: p :: rest =>
      if Ascii.eqb z "0"%char then
        if Ascii.eqb p "x"%char || Ascii.eqb p "X"%char
        then whole hex_digit_of 16 rest
        else if Ascii.eqb p "o"%char || Ascii.eqb p "O"%char
        then whole (digit_below 8) 8 rest
        else if Ascii.eqb p "b"%char || Ascii.eqb p "B"%char
        then whole (digit_below 2) 2 rest
        else None
      else None
  | _ => None
  end.

(** A signed decimal literal: [Infinity], or digits with an optional
    fraction and an optional exponent; a digit is needed before or after
    the point. *)
Definition decimal_literal (l : list ascii) : number :=
  let '(sign, body) := split_sign l in
  if String.eqb (string_of_list_ascii body) "Infinity" then Infinite (sign <? 0)
  else
    let '(whole, n_whole, after_whole) := digits_prefix digit_of 10 0 0 body in
    let '(m, n_fraction, after_fraction) :=
      match after_whole with
      | c :: rest =>
          if Ascii.eqb c "."%char then digits_prefix digit_of 10 whole 0 rest
          else (whole, 0%nat, after_whole)
      | [] => (whole, 0%nat, [])
      end in
    match (n_whole + n_fraction)%nat with
    | O => NaN
    | S _ =>
        match after_fraction with
        | [] => Decimal (sign * m) (- Z.of_nat n_fraction)
        | c :: rest =>
            if Ascii.eqb c "e"%char || Ascii.eqb c "E"%char then
              let '(exponent_sign, digits) := split_sign rest in
              match digits_prefix digit_of 10 0 0 digits with
              | (x, S _, []) =>
                  Decimal (sign * m) (exponent_sign * x - Z.of_nat n_fraction)
              | _ => NaN
              end
            else NaN
        end
    end.

(** ToNumber on a string (StringNumericLiteral): surrounding white space
    is dropped, the empty string is 0, and what is left has to be a
    non-decimal integer literal or a signed decimal literal as a whole. *)
Definition string_to_number (s : string) : number :=
  match trim (list_ascii_of_string s) with
  | [] => Decimal 0 0
  | l =>
      match non_decimal l with
      | Some n => Decimal n 0
      | None => decimal_literal l
      end
  end.

(** ToNumber.  Arrays and objects go through ToString. *)
Definition to_number (v : value) : number :=
  match v with
  | Undefined => NaN
  | Null => Decimal 0 0
  | Bool b => Decimal (if b then 1 else 0) 0
  | Num n => Decimal n 0
  | Str s => string_to_number s
  | Arr _ | Obj _ => string_to_number (to_string v)
  end.

(** [v > 0]: false when [v] is NaN. *)
Definition gt_zero (v : value) : bool := positive (to_number v).

(** [parseInt(v)] with no radix argument, [None] for NaN: leading white
    space, a sign, an optional [0x] prefix, then the longest run of digits. *)
Definition parseInt (v : value) : option Z :=
  let '(sign, body) :=
    split_sign (skip_spaces (list_ascii_of_string (to_string v))) in
  let hex rest :=
    match digits_prefix hex_digit_of 16 0 0 rest with
    | (n, S _, _) => Some (sign * n)
    | _ => None
    end in
  let decimal :=
    match digits_prefix digit_of 10 0 0 body with
    | (n, S _, _) => Some (sign * n)
    | _ => None
    end in
  match body with
  | z :: x :: rest =>
      if Ascii.eqb z "0"%char
         && (Ascii.eqb x "x"%char || Ascii.eqb x "X"%char)
      then hex rest else decimal
  | _ => decimal
  end.

(** What JSON.stringify writes for a number that may be NaN. *)
Definition number_or_null (n : option Z) : value :=
  match n with Some k => Num k | None => Null end.

(** *** Property access *)

Fixpoint lookup (k : string) (fields : list (string * value)) : option value :=
  match fields with
  | [] => None
  | (k', v) :: rest => if String.eqb k k' then Some v else lookup k rest
  end.

(** [v.name] for a name written in the script (an identifier, never an
    index).  [None] is the TypeError raised on [null] and [undefined]. *)
Definition field (v : value) (name : string) : option value :=
  match v with
  | Undefined | Null => None
  | Obj fields =>
      Some (match lookup name fields with Some x => x | None => Undefined end)
  | Arr items =>
      Some (if String.eqb name "length"
            then Num (Z.of_nat (List.length items)) else Undefined)
  | Str s =>
      Some (if String.eqb name "length"
            then Num (Z.of_nat (String.length s)) else Undefined)
  | Bool _ | Num _ => Some Undefined
  end.

Definition index_keys (n : nat) : list string :=
  map (fun i => dec (Z.of_nat i)) (seq 0 n).

Fixpoint chars (s : string) : list value :=
  match s with
  | EmptyString => []
  | String c rest => Str (String c EmptyString) :: chars rest
  end.

Fixpoint dedup (seen : list string) (l : list string) : list string :=
  match l with
  | [] => []
  | k :: rest =>
      if existsb (String.eqb k) seen then dedup seen rest
      else k :: dedup (k :: seen) rest
  end.

(** [Object.keys(v)]; [None] is the TypeError on [null] and [undefined].
    A key that occurs twice in [fields] counts once.  The keys come in the
    order of [fields]; the script writes a different element for each key,
    so the order of the visit does not show. *)
Definition keys (v : value) : option (list string) :=
  match v with
  | Undefined | Null => None
  | Obj fields => Some (dedup [] (map fst fields))
  | Arr items => Some (index_keys (List.length items))
  | Str s => Some (index_keys (String.length s))
  | Bool _ | Num _ => Some []
  end.

Fixpoint zip_index (ks : list string) (l : list value) : list (string * value) :=
  match ks, l with
  | k :: ks', x :: l' => (k, x) :: zip_index ks' l'
  | _, _ => []
  end.

(** [v[key]] for a key obtained from [Object.keys(v)]. *)
Definition element (v : value) (key : string) : value :=
  let find fields :=
    match lookup key fields with Some x => x | None => Undefined end in
  match v with
  | Obj fields => find fields
  | Arr items => find (zip_index (index_keys (List.length items)) items)
  | Str s => find (zip_index (index_keys (String.length s)) (chars s))
  | _ => Undefined
  end.

(** The object literal handed to JSON.stringify: a property whose value is
    [undefined] is left out. *)
Definition json_object (fields : list (string * value)) : value :=
  Obj (filter (fun kv => match snd kv with Undefined => false | _ => true end)
              fields).

End Js.

(* ===================================================================== *)
(** ** The document *)
(* ===================================================================== *)

Module Dom.

(** A badge: its text and its [style.display]. *)
Record badge : Type := Badge { badge_text : string; badge_display : string }.

(** Markup written through [innerHTML].  Each template of the script is a
    constructor whose arguments are the interpolated strings; [PageMarkup]
    is whatever the server rendered there. *)
Inductive fragment : Type :=
| PageMarkup (html : string)
| NoItemsFound
| SearchRow (image name price id : string)
| MenuHeader
| MenuEmpty
| NotificationRow (url title message time : string).

Record panel : Type := Panel { panel_html : list fragment; panel_classes : list string }.

Record indicator : Type :=
  Indicator { indicator_message : string; indicator_display : string }.

Record toast : Type :=
  Toast { toast_id : string; toast_class : string; toast_message : string }.

Record t : Type := Make {
  cart_badge : option badge;             (* #cart-badge *)
  cart_total : option string;            (* text of #cart-total *)
  quantities : list (string * string);   (* [data-quantity-for=k] and its text,
                                            in document order *)
  cart_items : list string;              (* [data-cart-item=k], in document order *)
  search_results : option panel;         (* #search-results *)
  notification_badge : option badge;     (* #notification-badge *)
  notification_menu : option (list fragment);   (* #notification-menu *)
  stats : list (string * string);        (* elements with an id and their text *)
  loading_indicator : option indicator;  (* #loading-indicator *)
  toast_container : option (list toast); (* #toast-container and its children *)
  csrf_field : option string;            (* value of [name=csrfmiddlewaretoken] *)
  csrf_meta : option string;             (* content of meta[name=csrf-token] *)
  menu_search : option string            (* value of #menu-search *)
}.

Definition set_cart_badge (x : option badge) (d : t) : t :=
  Make x (cart_total d) (quantities d) (cart_items d) (search_results d)
       (notification_badge d) (notification_menu d) (stats d)
       (loading_indicator d) (toast_container d) (csrf_field d) (csrf_meta d)
       (menu_search d).

Definition set_cart_total (x : option string) (d : t) : t :=
  Make (cart_badge d) x (quantities d) (cart_items d) (search_results d)
       (notification_badge d) (notification_menu d) (stats d)
       (loading_indicator d) (toast_container d) (csrf_field d) (csrf_meta d)
       (menu_search d).

Definition set_quantities (x : list (string * string)) (d : t) : t :=
  Make (cart_badge d) (cart_total d) x (cart_items d) (search_results d)
       (notification_badge d) (notification_menu d) (stats d)
       (loading_indicator d) (toast_container d) (csrf_field d) (csrf_meta d)
       (menu_search d).

Definition set_cart_items (x : list string) (d : t) : t :=
  Make (cart_badge d) (cart_total d) (quantities d) x (search_results d)
       (notification_badge d) (notification_menu d) (stats d)
       (loading_indicator d) (toast_container d) (csrf_field d) (csrf_meta d)
       (menu_search d).

Definition set_search_results (x : option panel) (d : t) : t :=
  Make (cart_badge d) (cart_total d) (quantities d) (cart_items d) x
       (notification_badge d) (notification_menu d) (stats d)
       (loading_indicator d) (toast_container d) (csrf_field d) (csrf_meta d)
       (menu_search d).

Definition set_notification_badge (x : option badge) (d : t) : t :=
  Make (cart_badge d) (cart_total d) (quantities d) (cart_items d)
       (search_results d) x (notification_menu d) (stats d)
       (loading_indicator d) (toast_container d) (csrf_field d) (csrf_meta d)
       (menu_search d).

Definition set_notification_menu (x : option (list fragment)) (d : t) : t :=
  Make (cart_badge d) (cart_total d) (quantities d) (cart_items d)
       (search_results d) (notification_badge d) x (stats d)
       (loading_indicator d) (toast_container d) (csrf_field d) (csrf_meta d)
       (menu_search d).

Definition set_stats (x : list (string * string)) (d : t) : t :=
  Make (cart_badge d) (cart_total d) (quantities d) (cart_items d)
       (search_results d) (notification_badge d) (notification_menu d) x
       (loading_indicator d) (toast_container d) (csrf_field d) (csrf_meta d)
       (menu_search d).

Definition set_loading_indicator (x : option indicator) (d : t) : t :=
  Make (cart_badge d) (cart_total d) (quantities d) (cart_items d)
       (search_results d) (notification_badge d) (notification_menu d)
       (stats d) x (toast_container d) (csrf_field d) (csrf_meta d)
       (menu_search d).

Definition set_toast_container (x : option (list toast)) (d : t) : t :=
  Make (cart_badge d) (cart_total d) (quantities d) (cart_items d)
       (search_results d) (notification_badge d) (notification_menu d)
       (stats d) (loading_indicator d) x (csrf_field d) (csrf_meta d)
       (menu_search d).

Definition set_menu_search (x : option string) (d : t) : t :=
  Make (cart_badge d) (cart_total d) (quantities d) (cart_items d)
       (search_results d) (notification_badge d) (notification_menu d)
       (stats d) (loading_indicator d) (toast_container d) (csrf_field d)
       (csrf_meta d) x.

(** The toasts on the page: none while the container does not exist. *)
Definition toasts (d : t) : list toast :=
  match toast_container d with Some l => l | None => [] end.

(** [querySelector] on an attribute value or [getElementById], followed by
    an assignment to [textContent]: the first element that matches, in
    document order, gets the text; nothing happens when none matches. *)
Fixpoint set_first_text (key text : string) (l : list (string * string))
  : list (string * string) :=
  match l with
  | [] => []
  | (k, old) :: rest =>
      if String.eqb k key then (k, text) :: rest
      else (k, old) :: set_first_text key text rest
  end.

(** [querySelector] followed by [remove()]. *)
Fixpoint remove_first (key : string) (l : list string) : list string :=
  match l with
  | [] => []
  | k :: rest => if String.eqb k key then rest else k :: remove_first key rest
  end.

(** *** Attribute selectors

    The script builds the selectors [[data-quantity-for="ID"]] and
    [[data-cart-item="ID"]] by pasting the id between the quotes, so the id
    is read by the CSS tokenizer as the inside of a string (CSS Syntax
    Level 3, 4.3.5 and 4.3.7): a quote ends the string, a line break breaks
    it, a backslash starts an escape. *)

(** Input preprocessing: CR, FF and CR LF become LF, NUL becomes U+FFFD. *)
Fixpoint preprocess (l : list ascii) : list Z :=
  match l with
  | [] => []
  | c :: rest =>
      let n := Z.of_nat (nat_of_ascii c) in
      if n =? 13 then
        10 :: match rest with
              | c2 :: rest2 =>
                  if Z.of_nat (nat_of_ascii c2) =? 10 then preprocess rest2
                  else preprocess rest
              | [] => []
              end
      else if n =? 12 then 10 :: preprocess rest
      else if n =? 0 then 65533 :: preprocess rest
      else n :: preprocess rest
  end.

Definition hex_value (c : Z) : option Z :=
  if (48 <=? c) && (c <=? 57) then Some (c - 48)
  else if (97 <=? c) && (c <=? 102) then Some (c - 87)
  else if (65 <=? c) && (c <=? 70) then Some (c - 55)
  else None.

(** The code point a hexadecimal escape stands for. *)
Definition escaped_code_point (v : Z) : Z :=
  if (v =? 0) || ((55296 <=? v) && (v <=? 57343)) || (1114111 <? v)
  then 65533 else v.

(** Where the tokenizer is inside the string: reading it, just after a
    backslash, or inside a hexadecimal escape (its value and the number of
    digits read so far). *)
Inductive scan : Type :=
| InString
| Escaped
| InHex (v : Z) (digits : nat).

(** The string token: broken by a line break; closed by a quote, with what
    follows it; or ended by the end of the input. *)
Inductive string_token : Type :=
| BadString
| Closed (value rest : list Z)
| Unclosed (value : list Z).

Fixpoint consume_string (state : scan) (acc : list Z) (l : list Z) : string_token :=
  match l with
  | [] =>
      match state with
      | InHex v _ => Unclosed (acc ++ [escaped_code_point v])
      | InString | Escaped => Unclosed acc
      end
  | c :: rest =>
      let ordinary acc :=
        if c =? 34 then Closed acc rest
        else if c =? 10 then BadString
        else if c =? 92 then consume_string Escaped acc rest
        else consume_string InString (acc ++ [c]) rest in
      match state with
      | InString => ordinary acc
      | Escaped =>
          if c =? 10 then consume_string InString acc rest
          else match hex_value c with
               | Some d => consume_string (InHex d 1) acc rest
               | None => consume_string InString (acc ++ [c]) rest
               end
      | InHex v n =>
          match hex_value c, (n <? 6)%nat with
          | Some d, true => consume_string (InHex (v * 16 + d) (S n)) acc rest
          | _, _ =>
              let acc' := (acc ++ [escaped_code_point v])%list in
              if (c =? 10) || (c =? 9) || (c =? 32)
              then consume_string InString acc' rest
              else ordinary acc'
          end
      end
  end.

(** What a selector [[name="ID"]] selects, as far as the id decides it:
    the elements whose attribute has a given value; no element of the
    document (the value has a code point that no attribute of the model
    holds); nothing at all, because the selector is malformed and
    [querySelector] throws a SyntaxError; or something the id itself
    decides, because the id ends the string and goes on with selector
    syntax of its own. *)
Inductive selection : Type :=
| Malformed
| Selects (value : string)
| SelectsNothing
| Rewritten.

Definition selected (value : list Z) : selection :=
  if forallb (fun c => c <? 256) value
  then Selects (string_of_list_ascii
                  (map (fun c => ascii_of_nat (Z.to_nat c)) value))
  else SelectsNothing.

(** After the string of an attribute selector only white space, a comment,
    one of the modifiers [i] and [s] (which an escape can spell) and the
    closing bracket can follow: whether what follows the string can still
    be part of a selector is decided by its first code point (tab, line
    feed, space, slash, backslash, closing bracket, or one of the letters
    I, i, S, s). *)
Definition continues (rest : list Z) : bool :=
  match rest with
  | c :: _ => existsb (Z.eqb c) [9; 10; 32; 47; 92; 93; 73; 105; 83; 115]
  | [] => false
  end.

(** The string runs up to the quote the script appends, and the bracket
    follows it; or that quote is escaped and string and selector end with
    the input.  When a quote inside the id ends the string early, the
    selector is malformed unless what follows can continue it; if it can,
    the id has rewritten the selector. *)
Definition attribute_selector (id : string) : selection :=
  match consume_string InString []
          (preprocess (list_ascii_of_string id ++ [ascii_of_nat 34; "]"%char])) with
  | BadString => Malformed
  | Closed value rest =>
      match rest with
      | [93] => selected value
      | _ => if continues rest then Rewritten else Malformed
      end
  | Unclosed value => selected value
  end.

(** [classList.add] and [classList.remove] on a token list. *)
Definition class_add (c : string) (l : list string) : list string :=
  if existsb (String.eqb c) l then l else l ++ [c].

Definition class_remove (c : string) (l : list string) : list string :=
  filter (fun x => negb (String.eqb x c)) l.

(** The part of the document that shows the cart: the badge with its
    visibility, the per-item quantities, the total and the item nodes. *)
Definition cart_view (d : t)
  : option badge * list (string * string) * option string * list string :=
  (cart_badge d, quantities d, cart_total d, cart_items d).

End Dom.

(* ===================================================================== *)
(** ** Requests, the host and the page *)
(* ===================================================================== *)

Inductive http_method : Type := GET | POST.

(** A call of [fetch]: the query string is kept decoded, so that
    [encodeURIComponent] needs no model. *)
Record request : Type := Request {
  req_method : http_method;
  req_path : string;
  req_query : list (string * string);
  req_headers : list (string * string);
  req_body : option Js.value
}.

(** What [await fetch(...)] followed by [await response.json()] gives:
    [fetch] rejects, or the body is not JSON, or the parsed value. *)
Inductive response : Type :=
| NetworkError
| NotJson
| Json (data : Js.value).

(** What the script reads from its environment while one handler runs. *)
Record host : Type := Host {
  now : Z;                          (* Date.now(), in milliseconds *)
  respond : request -> response;    (* the server and the transport *)
  confirm : string -> bool          (* the user's answer to confirm(...) *)
}.

(** What the script changes: the document, the requests it has issued with
    the time of each, the lines of [console.error], and the times at which
    [window.location.reload] is due. *)
Record page : Type := Page {
  dom : Dom.t;
  requests : list (Z * request);
  errors : list string;
  reloads : list Z
}.

Definition with_dom (f : Dom.t -> Dom.t) (p : page) : page :=
  Page (f (dom p)) (requests p) (errors p) (reloads p).

(* ===================================================================== *)
(** ** Effects *)
(* ===================================================================== *)

Module Eff.

(** A computation reads the host, changes the page and either returns or
    throws ([None]); the page reached when it throws is kept. *)
Definition M (A : Type) : Type := host -> page -> option A * page.

Definition ret {A} (a : A) : M A := fun _ p => (Some a, p).

Definition bind {A B} (m : M A) (k : A -> M B) : M B :=
  fun h p =>
    match m h p with
    | (Some a, p') => k a h p'
    | (None, p') => (None, p')
    end.

Definition throw {A} : M A := fun _ p => (None, p).

(** [try { body } catch (error) { handler }]. *)
Definition try_catch {A} (body handler : M A) : M A :=
  fun h p =>
    match body h p with
    | (Some a, p') => (Some a, p')
    | (None, p') => handler h p'
    end.

(** [try { body } finally { cleanup }]. *)
Definition try_finally {A} (body : M A) (cleanup : M unit) : M A :=
  fun h p =>
    match body h p with
    | (r, p') =>
        match cleanup h p' with
        | (Some _, p'') => (r, p'')
        | (None, p'') => (None, p'')
        end
    end.

Definition ask : M host := fun h p => (Some h, p).
Definition get_dom : M Dom.t := fun _ p => (Some (dom p), p).
Definition modify_dom (f : Dom.t -> Dom.t) : M unit :=
  fun _ p => (Some tt, with_dom f p).

(** A value that may be a TypeError. *)
Definition lift {A} (x : option A) : M A := fun _ p => (x, p).

(** The page after running a computation. *)
Definition exec {A} (m : M A) (h : host) (p : page) : page := snd (m h p).

End Eff.

Declare Scope eff_scope.
Delimit Scope eff_scope with eff.
Notation "x <- m ;; k" := (Eff.bind m (fun x => k))
  (at level 61, m at next level, right associativity) : eff_scope.
Notation "m ;; k" := (Eff.bind m (fun _ => k))
  (at level 61, right associativity) : eff_scope.
Local Open Scope eff_scope.

(* ===================================================================== *)
(** ** The methods of [Dashboard] *)
(* ===================================================================== *)

Module Dashboard.
Import Js Dom Eff.

(** *** Primitives of the browser *)

Definition console_error (label : string) : M unit :=
  fun _ p => (Some tt, Page (dom p) (requests p) (errors p ++ [label]) (reloads p)).

(** [await fetch(r)] then [await response.json()]: the request is on the
    wire whatever comes back. *)
Definition fetch_json (r : request) : M value :=
  fun h p =>
    let p' := Page (dom p) (requests p ++ [(now h, r)]) (errors p) (reloads p) in
    match respond h r with
    | Json data => (Some data, p')
    | NetworkError | NotJson => (None, p')
    end.

(** [setTimeout(() => window.location.reload(), delay)]. *)
Definition reload_after (delay : Z) : M unit :=
  fun h p =>
    (Some tt, Page (dom p) (requests p) (errors p) (reloads p ++ [now h + delay])).

Definition ask_confirm (question : string) : M bool :=
  fun h p => (Some (confirm h question), p).

Definition prop (v : value) (name : string) : M value := lift (field v name).

(** [document.querySelector] on an attribute selector built around [id]:
    the value to look for, if any element can have it; a malformed
    selector throws.  A selector the id has rewritten can name any element
    of the page, which the slots of [Dom.t] cannot follow: it is run as if
    it were rejected, and the properties that depend on the element found
    are stated for ids that leave the selector as the script wrote it. *)
Definition querySelector (id : string) : M (option string) :=
  match attribute_selector id with
  | Malformed | Rewritten => throw
  | Selects value => ret (Some value)
  | SelectsNothing => ret None
  end.

Fixpoint traverse {A B} (f : A -> option B) (l : list A) : option (list B) :=
  match l with
  | [] => Some []
  | x :: rest =>
      match f x with
      | Some y =>
          match traverse f rest with
          | Some ys => Some (y :: ys)
          | None => None
          end
      | None => None
      end
  end.

(** *** getCSRFToken, showLoading, hideLoading, showToast *)

(** The token the page carries: the hidden form field, else the meta tag,
    else the empty string. *)
Definition csrf_token (d : Dom.t) : string :=
  let of_slot (s : option string) :=
    match s with Some x => Str x | None => Undefined end in
  to_string (or_else (or_else (of_slot (csrf_field d)) (of_slot (csrf_meta d)))
                     (Str EmptyString)).

Definition getCSRFToken : M string :=
  d <- get_dom;;
  ret (csrf_token d).

Definition showLoading (message : string) : M unit :=
  modify_dom (set_loading_indicator (Some (Indicator message "block"))).

Definition hideLoading : M unit :=
  modify_dom (fun d =>
    match loading_indicator d with
    | Some i => set_loading_indicator (Some (Indicator (indicator_message i) "none")) d
    | None => d
    end).

Definition toast_class_of (type : string) : string :=
  if String.eqb type "success" then "bg-success"
  else if String.eqb type "error" then "bg-danger"
  else "bg-info".

(** The element [showToast] inserts when the clock reads [time]. *)
Definition new_toast (time : Z) (message : value) (type : string) : toast :=
  Toast ("toast-" ++ dec time) (toast_class_of type) (to_string message).

Definition showToast (message : value) (type : string) : M unit :=
  h <- ask;;
  modify_dom (fun d =>
    set_toast_container
      (Some (toasts d ++ [new_toast (now h) message type])%list) d).

(** *** The cart badge and the cart total *)

Definition count_request : request :=
  Request GET "/orders/api/cart/count/" [] [] None.

Definition fetchCartCount : M value :=
  try_catch
    (data <- fetch_json count_request;;
     count <- prop data "count";;
     ret (or_else count (Num 0)))
    (console_error "Error fetching cart count:";;
     ret (Num 0)).

(** [badge.textContent = count; badge.style.display = count > 0 ? 'inline' : 'none']. *)
Definition show_count (count : value) : badge :=
  Badge (text_content count) (if gt_zero count then "inline" else "none").

(** The default of the parameter [count = null]. *)
Definition count_or_default (count : value) : value :=
  match count with Undefined => Null | _ => count end.

Definition updateCartBadge (count : value) : M unit :=
  let count := count_or_default count in
  d <- get_dom;;
  match cart_badge d with
  | Some _ =>
      if negb (is_null count)
      then modify_dom (set_cart_badge (Some (show_count count)))
      else
        cartCount <- fetchCartCount;;
        modify_dom (set_cart_badge (Some (show_count cartCount)))
  | None => ret tt
  end.

Definition updateCartTotal (total : value) : M unit :=
  modify_dom (fun d =>
    match cart_total d with
    | Some _ => set_cart_total (Some (to_string total ++ " XAF")) d
    | None => d
    end).

(** *** Cart mutations *)

Definition json_headers (token : string) : list (string * string) :=
  [("Content-Type", "application/json"); ("X-CSRFToken", token)].

Definition add_request (token : string) (menuItemId quantity : value) : request :=
  Request POST "/orders/api/cart/add/" [] (json_headers token)
    (Some (json_object [("menu_item_id", menuItemId);
                        ("quantity", number_or_null (parseInt quantity))])).

(** The default of the parameter [quantity = 1]. *)
Definition quantity_or_default (quantity : value) : value :=
  match quantity with Undefined => Num 1 | _ => quantity end.

Definition addToCart (menuItemId quantity : value) : M unit :=
  let quantity := quantity_or_default quantity in
  try_finally
    (try_catch
       (showLoading "Adding to cart...";;
        token <- getCSRFToken;;
        data <- fetch_json (add_request token menuItemId quantity);;
        success <- prop data "success";;
        if truthy success then
          showToast (Str "Item added to cart!") "success";;
          cart_count <- prop data "cart_count";;
          updateCartBadge cart_count
        else
          message <- prop data "message";;
          showToast (or_else message (Str "Failed to add item to cart")) "error")
       (console_error "Add to cart error:";;
        showToast (Str "Error adding item to cart") "error"))
    hideLoading.

Definition update_request (token : string) (menuItemId : value) (action : string)
  : request :=
  Request POST "/orders/api/cart/update/" [] (json_headers token)
    (Some (json_object [("menu_item_id", menuItemId); ("action", Str action)])).

Definition updateCartQuantity (menuItemId : value) (action : string) : M unit :=
  try_catch
    (token <- getCSRFToken;;
     data <- fetch_json (update_request token menuItemId action);;
     success <- prop data "success";;
     if truthy success then
       quantityElement <- querySelector (to_string menuItemId);;
       match quantityElement with
       | Some key =>
           new_quantity <- prop data "new_quantity";;
           modify_dom (fun d =>
             set_quantities (set_first_text key (text_content new_quantity)
                                            (quantities d)) d)
       | None => ret tt
       end;;
       cart_count <- prop data "cart_count";;
       updateCartBadge cart_count;;
       cart_total <- prop data "cart_total";;
       updateCartTotal cart_total
     else
       message <- prop data "message";;
       showToast (or_else message (Str "Failed to update cart")) "error")
    (console_error "Update cart error:";;
     showToast (Str "Error updating cart") "error").

Definition remove_request (token : string) (menuItemId : value) : request :=
  Request POST "/orders/api/cart/remove/" [] (json_headers token)
    (Some (json_object [("menu_item_id", menuItemId)])).

Definition removeFromCart (menuItemId : value) : M unit :=
  ok <- ask_confirm "Remove this item from cart?";;
  if negb ok then ret tt
  else
    try_catch
      (token <- getCSRFToken;;
       data <- fetch_json (remove_request token menuItemId);;
       success <- prop data "success";;
       if truthy success then
         cartItem <- querySelector (to_string menuItemId);;
         match cartItem with
         | Some key =>
             modify_dom (fun d =>
               set_cart_items (remove_first key (cart_items d)) d)
         | None => ret tt
         end;;
         cart_count <- prop data "cart_count";;
         updateCartBadge cart_count;;
         cart_total <- prop data "cart_total";;
         updateCartTotal cart_total;;
         showToast (Str "Item removed from cart") "success"
       else
         message <- prop data "message";;
         showToast (or_else message (Str "Failed to remove item")) "error")
      (console_error "Remove from cart error:";;
       showToast (Str "Error removing item from cart") "error").

(** *** Orders *)

Definition status_request (token : string) (orderId : value) (newStatus : string)
  : request :=
  Request POST "/orders/update-status/" [] (json_headers token)
    (Some (json_object [("order_id", orderId); ("status", Str newStatus)])).

Definition updateOrderStatus (orderId : value) (newStatus : string) : M unit :=
  try_finally
    (try_catch
       (showLoading "Updating order status...";;
        token <- getCSRFToken;;
        data <- fetch_json (status_request token orderId newStatus);;
        success <- prop data "success";;
        if truthy success then
          showToast (Str "Order status updated successfully") "success";;
          reload_after 1000
        else
          message <- prop data "message";;
          showToast (or_else message (Str "Failed to update order status")) "error")
       (console_error "Update order status error:";;
        showToast (Str "Error updating order status") "error"))
    hideLoading.

Definition cancel_request (token : string) (orderId : value) : request :=
  Request POST ("/orders/cancel/" ++ to_string orderId ++ "/") []
    [("X-CSRFToken", token)] None.

Definition cancelOrder (orderId : value) : M unit :=
  ok <- ask_confirm "Are you sure you want to cancel this order?";;
  if negb ok then ret tt
  else
    try_finally
      (try_catch
         (showLoading "Cancelling order...";;
          token <- getCSRFToken;;
          data <- fetch_json (cancel_request token orderId);;
          success <- prop data "success";;
          if truthy success then
            showToast (Str "Order cancelled successfully") "success";;
            reload_after 1000
          else
            message <- prop data "message";;
            showToast (or_else message (Str "Failed to cancel order")) "error")
         (console_error "Cancel order error:";;
          showToast (Str "Error cancelling order") "error"))
      hideLoading.

(** *** Search *)

Definition search_request (query : string) : request :=
  Request GET "/menu/api/items/" [("search", query)] [] None.

(** One row of the result list, from the template of [displaySearchResults];
    reading a property of a [null] item is a TypeError. *)
Definition search_row (item : value) : option fragment :=
  match field item "image", field item "name", field item "price", field item "id" with
  | Some image, Some name, Some price, Some id =>
      Some (SearchRow
              (to_string (or_else image (Str "/static/images/placeholder.jpg")))
              (to_string name) (to_string price) (to_string id))
  | _, _, _, _ => None
  end.

(** [items.map(row).join('')]: only an array has [map]. *)
Definition render_rows (row : value -> option fragment) (items : value)
  : option (list fragment) :=
  match items with
  | Arr l => traverse row l
  | _ => None
  end.

Definition displaySearchResults (items : value) : M unit :=
  d <- get_dom;;
  match search_results d with
  | None => ret tt
  | Some resultsContainer =>
      len <- prop items "length";;
      html <- (if is_zero len then ret [NoItemsFound]
               else lift (render_rows search_row items));;
      modify_dom (set_search_results
                    (Some (Panel html (class_remove "d-none"
                                         (panel_classes resultsContainer)))))
  end.

Definition searchMenu (query : string) : M unit :=
  if Z.of_nat (String.length query) <? 2 then
    modify_dom (fun d =>
      match search_results d with
      | Some pn =>
          set_search_results
            (Some (Panel (panel_html pn) (class_add "d-none" (panel_classes pn)))) d
      | None => d
      end)
  else
    try_catch
      (data <- fetch_json (search_request query);;
       items <- prop data "items";;
       displaySearchResults items)
      (console_error "Search error:").

(** *** Notifications *)

Definition notifications_request : request :=
  Request GET "/dashboard/api/notifications/" [] [] None.

Definition updateNotificationBadge (count : value) : M unit :=
  modify_dom (fun d =>
    match notification_badge d with
    | Some _ => set_notification_badge (Some (show_count count)) d
    | None => d
    end).

Definition notification_row (notification : value) : option fragment :=
  match field notification "url", field notification "title",
        field notification "message", field notification "time" with
  | Some url, Some title, Some message, Some time =>
      Some (NotificationRow (to_string url) (to_string title)
                            (to_string message) (to_string time))
  | _, _, _, _ => None
  end.

(** The markup [displayNotifications] builds in [menuHTML]; [None] when
    building it throws ([forEach] exists on arrays only). *)
Definition menu_markup (notifications : value) : option (list fragment) :=
  match field notifications "length" with
  | None => None
  | Some len =>
      if is_zero len then Some [MenuHeader; MenuEmpty]
      else match render_rows notification_row notifications with
           | Some rows => Some (MenuHeader :: rows)
           | None => None
           end
  end.

Definition displayNotifications (notifications : value) : M unit :=
  d <- get_dom;;
  match notification_menu d with
  | None => ret tt
  | Some _ =>
      menuHTML <- lift (menu_markup notifications);;
      modify_dom (set_notification_menu (Some menuHTML))
  end.

Definition loadNotifications : M unit :=
  try_catch
    (data <- fetch_json notifications_request;;
     notifications <- prop data "notifications";;
     len <- prop notifications "length";;
     updateNotificationBadge len;;
     displayNotifications notifications)
    (console_error "Error loading notifications:").

(** *** Order statistics *)

Definition stats_request : request :=
  Request GET "/dashboard/api/order-stats/" [] [] None.

Definition updateOrderStats : M unit :=
  try_catch
    (data <- fetch_json stats_request;;
     ks <- lift (keys data);;
     modify_dom (fun d =>
       set_stats
         (fold_left (fun elements key =>
                       set_first_text ("stat-" ++ key)
                                      (text_content (element data key)) elements)
                    ks (stats d)) d))
    (console_error "Error updating order stats:").

(** *** Start-up and the refresh interval *)

Definition loadInitialData : M unit :=
  updateCartBadge Undefined;;
  loadNotifications;;
  updateOrderStats.

(** [init()]; its [console.log] line is not recorded. *)
Definition init : M unit := loadInitialData.

(** A timer set with [setInterval]: when it fires next, its period and
    its callback. *)
Record interval_timer : Type := Interval {
  due : Z;
  period : Z;
  callback : M unit
}.

Definition startRealTimeUpdates : M interval_timer :=
  h <- ask;;
  ret (Interval (now h + 30000) 30000
                (updateCartBadge Undefined;;
                 loadNotifications;;
                 updateOrderStats)).

(** *** The page over time *)

(** The server and the user over time. *)
Record world : Type := World {
  server : Z -> request -> response;
  user : Z -> string -> bool
}.

Definition at_time (w : world) (t : Z) : host := Host t (server w t) (user w t).

(** A page whose dashboard has been constructed. *)
Record running : Type := Running { current : page; refresh_timer : interval_timer }.

(** [new Dashboard()] at time [t0]: [init()], then
    [startRealTimeUpdates()]; [setupEventListeners()] only registers
    handlers.  A method that throws inside the constructor leaves the
    timer unset. *)
Definition construct (w : world) (t0 : Z) (p : page) : option running :=
  match (init;; startRealTimeUpdates) (at_time w t0) p with
  | (Some timer, p') => Some (Running p' timer)
  | (None, _) => None
  end.

(** The interval timer fires: its callback runs at the due time and the
    timer is due again one period later. *)
Definition tick (w : world) (r : running) : running :=
  let timer := refresh_timer r in
  Running (exec (callback timer) (at_time w (due timer)) (current r))
          (Interval (due timer + period timer) (period timer) (callback timer)).

Fixpoint ticks (w : world) (n : nat) (r : running) : running :=
  match n with
  | O => r
  | S n' => ticks w n' (tick w r)
  end.

(** *** The search field and its debounce *)

(** [searchTimeout] of [setupSearchListeners]: when the pending timeout is
    due, if one is pending. *)
Record search_box : Type := SearchBox { box_page : page; searchTimeout : option Z }.

(** The listener is attached only when [#menu-search] exists. *)
Definition setupSearchListeners (p : page) : option search_box :=
  match menu_search (dom p) with
  | Some _ => Some (SearchBox p None)
  | None => None
  end.

(** The timeout's callback, [this.searchMenu(e.target.value)]: the value
    is read when the callback runs. *)
Definition fire_search (w : world) (t : Z) (p : page) : page :=
  match menu_search (dom p) with
  | Some text => exec (searchMenu text) (at_time w t) p
  | None => p
  end.

(** Timers that are due by time [t] run before what happens at [t]. *)
Definition run_due (w : world) (t : Z) (s : search_box) : search_box :=
  match searchTimeout s with
  | Some d => if d <=? t then SearchBox (fire_search w d (box_page s)) None else s
  | None => s
  end.

(** An [input] event at time [t] that leaves [text] in the field:
    [clearTimeout(searchTimeout)], then a new timeout 300 ms later. *)
Definition on_input (w : world) (s : search_box) (e : Z * string) : search_box :=
  let '(t, text) := e in
  let s' := run_due w t s in
  SearchBox (with_dom (set_menu_search (Some text)) (box_page s')) (Some (t + 300)).

(** No more input: the pending timeout, if any, runs when it is due. *)
Definition settle (w : world) (s : search_box) : search_box :=
  match searchTimeout s with
  | Some d => SearchBox (fire_search w d (box_page s)) None
  | None => s
  end.

Definition type_in (w : world) (events : list (Z * string)) (s : search_box)
  : search_box :=
  settle w (fold_left (on_input w) events s).

(** *** The legacy helper of the first script *)

(** [fetchNotifications()]: the snapshot goes to [console.log], which is
    not recorded; a failure goes to [console.error]. *)
Definition fetchNotifications : M unit :=
  try_catch
    (data <- fetch_json notifications_request;;
     _ <- prop data "notifications";;
     ret tt)
    (console_error "Error fetching notifications:").

(** *** Delegated listeners *)

(** The target of an event: its class list, its [data-*] attributes under
    their [dataset] names, and its [value]. *)
Record node : Type := Node {
  node_classes : list string;
  node_dataset : list (string * string);
  node_value : string
}.

(** [target.matches('.name')]. *)
Definition matches (target : node) (name : string) : bool :=
  existsb (String.eqb name) (node_classes target).

Fixpoint attribute (name : string) (l : list (string * string)) : option string :=
  match l with
  | [] => None
  | (k, v) :: rest => if String.eqb name k then Some v else attribute name rest
  end.

(** [target.dataset.name]: [undefined] when the attribute is absent. *)
Definition dataset (target : node) (name : string) : value :=
  match attribute name (node_dataset target) with
  | Some s => Str s
  | None => Undefined
  end.

(** A call of an [async] method that is not awaited: the caller goes on
    whatever happens inside the call. *)
Definition spawn (m : M unit) : M unit := fun h p => (Some tt, snd (m h p)).

Inductive event_type : Type := Click | Change.

Definition same_type (a b : event_type) : bool :=
  match a, b with
  | Click, Click | Change, Change => true
  | _, _ => false
  end.

(** A listener on [document]: the event it listens to and its handler,
    which returns whether it called [preventDefault]. *)
Definition listener : Type := (event_type * (node -> M bool))%type.

Definition setupCartListeners : list listener :=
  [ (Click, fun target =>
       if matches target "add-to-cart-btn" then
         spawn (addToCart (dataset target "menuItemId")
                          (or_else (dataset target "quantity") (Num 1)));;
         ret true
       else ret false);
    (Click, fun target =>
       a <- (if matches target "cart-qty-increase" then
               spawn (updateCartQuantity (dataset target "menuItemId") "increase");;
               ret true
             else ret false);;
       b <- (if matches target "cart-qty-decrease" then
               spawn (updateCartQuantity (dataset target "menuItemId") "decrease");;
               ret true
             else ret false);;
       c <- (if matches target "cart-remove-btn" then
               spawn (removeFromCart (dataset target "menuItemId"));;
               ret true
             else ret false);;
       ret (a || b || c)) ].

Definition setupOrderListeners : list listener :=
  [ (Change, fun target =>
       if matches target "order-status-select" then
         spawn (updateOrderStatus (dataset target "orderId") (node_value target));;
         ret false
       else ret false);
    (Click, fun target =>
       if matches target "cancel-order-btn" then
         spawn (cancelOrder (dataset target "orderId"));;
         ret true
       else ret false) ].

(** The listeners [setupEventListeners] puts on [document], in the order
    of their registration (the search and form listeners sit on their own
    elements). *)
Definition setupEventListeners : list listener :=
  (setupCartListeners ++ setupOrderListeners)%list.

(** An event of type [type] on [target] reaches every listener of that
    type, in order; the result tells whether the default was prevented. *)
Fixpoint dispatch (listeners : list listener) (type : event_type)
         (target : node) : M bool :=
  match listeners with
  | [] => ret false
  | (type', handler) :: rest =>
      a <- (if same_type type type' then handler target else ret false);;
      b <- dispatch rest type target;;
      ret (a || b)
  end.

(** *** Form validation feedback *)

(** A form with the class [needs-validation]: what [checkValidity()]
    answers, and its class list. *)
Record form : Type := Form { form_valid : bool; form_classes : list string }.

(** The [submit] listener of [setupFormEnhancements]: the form after the
    event, and whether [preventDefault] and [stopPropagation] were called. *)
Definition on_submit (f : form) : form * bool :=
  (Form (form_valid f) (class_add "was-validated" (form_classes f)),
   negb (form_valid f)).

#[global] Arguments csrf_token : simpl never.
#[global] Arguments quantity_or_default : simpl never.
#[global] Arguments count_or_default : simpl never.
#[global] Arguments add_request : simpl never.
#[global] Arguments update_request : simpl never.
#[global] Arguments remove_request : simpl never.
#[global] Arguments status_request : simpl never.
#[global] Arguments cancel_request : simpl never.
#[global] Arguments search_request : simpl never.
#[global] Arguments new_toast : simpl never.
#[global] Arguments show_count : simpl never.

End Dashboard.

(* ===================================================================== *)
(** ** Sample pages and hosts *)
(* ===================================================================== *)

Module Sample.
Import Js Dom Dashboard.

(** A cart page: two items, the badge showing 2. *)
Definition cart_dom : Dom.t :=
  Make (Some (Badge "2" "inline")) (Some "3500 XAF")
       [("7", "1"); ("9", "1")] ["7"; "9"]
       (Some (Panel [PageMarkup "results"] ["dropdown"]))
       (Some (Badge "1" "inline")) (Some [PageMarkup "menu"])
       [("stat-pending", "4"); ("stat-ready", "0")]
       None None (Some "tok") None (Some EmptyString).

Definition cart_page : page := Page cart_dom [] [] [].

(** The double quote, and an item id that ends with one. *)
Definition quote : string := String (ascii_of_nat 34) EmptyString.
Definition quoted_id : value := Str (String "7"%char quote).

(** A host that answers every request with the same response and every
    confirmation prompt with the same answer. *)
Definition always (time : Z) (r : response) (answer : bool) : host :=
  Host time (fun _ => r) (fun _ => answer).

Definition added : response :=
  Json (Obj [("success", Bool true); ("cart_count", Num 3)]).

Definition out_of_stock : response :=
  Json (Obj [("success", Bool false); ("message", Str "Out of stock")]).

(** Two notifications, the same one twice. *)
Definition ready : Js.value :=
  Obj [("title", Str "Order ready"); ("message", Str "Order 12 is ready");
       ("url", Str "/orders/12/"); ("time", Str "12:30")].

Definition inbox : response := Json (Obj [("notifications", Arr [ready; ready])]).

(** A server that gives the same answer at all times, and a user who
    always accepts. *)
Definition steady (r : response) : world :=
  World (fun _ _ => r) (fun _ _ => true).

End Sample.

(* ===================================================================== *)
(** ** The vocabulary of the properties *)
(* ===================================================================== *)

Import Js Dom Eff Dashboard.

Definition toasts_of (p : page) : list toast := toasts (dom p).

(** [classList.add('d-none')] on the results panel, when there is one. *)
Definition hide_results (d : Dom.t) : Dom.t :=
  match search_results d with
  | Some pn =>
      set_search_results
        (Some (Panel (panel_html pn) (class_add "d-none" (panel_classes pn)))) d
  | None => d
  end.

(** *** The operations that call the server *)

Inductive operation : Type :=
| AddToCart (menuItemId quantity : value)
| UpdateCartQuantity (menuItemId : value) (action : string)
| RemoveFromCart (menuItemId : value)
| UpdateOrderStatus (orderId : value) (newStatus : string)
| CancelOrder (orderId : value)
| SearchMenu (query : string)
| LoadNotifications
| UpdateOrderStats
| FetchCartCount.

Definition perform (op : operation) : M unit :=
  match op with
  | AddToCart id quantity => addToCart id quantity
  | UpdateCartQuantity id action => updateCartQuantity id action
  | RemoveFromCart id => removeFromCart id
  | UpdateOrderStatus id status => updateOrderStatus id status
  | CancelOrder id => cancelOrder id
  | SearchMenu query => searchMenu query
  | LoadNotifications => loadNotifications
  | UpdateOrderStats => updateOrderStats
  | FetchCartCount => _ <- fetchCartCount;; ret tt
  end.

(** The request an operation sends from page [p]. *)
Definition request_of (op : operation) (p : page) : request :=
  let token := csrf_token (dom p) in
  match op with
  | AddToCart id quantity => add_request token id (quantity_or_default quantity)
  | UpdateCartQuantity id action => update_request token id action
  | RemoveFromCart id => remove_request token id
  | UpdateOrderStatus id status => status_request token id status
  | CancelOrder id => cancel_request token id
  | SearchMenu query => search_request query
  | LoadNotifications => notifications_request
  | UpdateOrderStats => stats_request
  | FetchCartCount => count_request
  end.

(** The operations that change something on the server; the other four
    only read. *)
Definition changes_state (op : operation) : bool :=
  match op with
  | AddToCart _ _ | UpdateCartQuantity _ _ | RemoveFromCart _
  | UpdateOrderStatus _ _ | CancelOrder _ => true
  | SearchMenu _ | LoadNotifications | UpdateOrderStats | FetchCartCount => false
  end.

Definition is_cart_mutation (op : operation) : bool :=
  match op with
  | AddToCart _ _ | UpdateCartQuantity _ _ | RemoveFromCart _ => true
  | _ => false
  end.

(** Whether the operation gets as far as its [fetch]: the user accepts the
    confirmation prompt where there is one, and a search query has at least
    2 characters. *)
Definition reaches_server (h : host) (op : operation) : bool :=
  match op with
  | RemoveFromCart _ => confirm h "Remove this item from cart?"
  | CancelOrder _ => confirm h "Are you sure you want to cancel this order?"
  | SearchMenu query => negb (Z.of_nat (String.length query) <? 2)
  | _ => true
  end.

(** How a reply reads to a handler that tests [data.success]: the request
    or the decoding failed (or the body is [null], on which reading
    [success] throws); or [success] is falsy, with the [message] sent along;
    or [success] is truthy. *)
Inductive verdict : Type :=
| Rejected
| Refused (message : value)
| Accepted (data : value).

Definition judge (r : response) : verdict :=
  match r with
  | Json data =>
      match field data "success" with
      | Some s =>
          if truthy s then Accepted data
          else Refused (match field data "message" with
                        | Some m => m
                        | None => Undefined
                        end)
      | None => Rejected
      end
  | NetworkError | NotJson => Rejected
  end.

(** The two kinds of failure of the claims: at transport level, and a
    payload whose [success] is falsy. *)
Definition failed (r : response) : bool :=
  match judge r with
  | Accepted _ => false
  | Rejected | Refused _ => true
  end.

(** The texts of a state-changing operation: the label of its
    [console.error] line, the toast of its [catch] block and the fallback
    used when the server sends no message. *)
Definition console_label (op : operation) : string :=
  match op with
  | AddToCart _ _ => "Add to cart error:"
  | UpdateCartQuantity _ _ => "Update cart error:"
  | RemoveFromCart _ => "Remove from cart error:"
  | UpdateOrderStatus _ _ => "Update order status error:"
  | CancelOrder _ => "Cancel order error:"
  | SearchMenu _ => "Search error:"
  | LoadNotifications => "Error loading notifications:"
  | UpdateOrderStats => "Error updating order stats:"
  | FetchCartCount => "Error fetching cart count:"
  end.

Definition catch_text (op : operation) : string :=
  match op with
  | AddToCart _ _ => "Error adding item to cart"
  | UpdateCartQuantity _ _ => "Error updating cart"
  | RemoveFromCart _ => "Error removing item from cart"
  | UpdateOrderStatus _ _ => "Error updating order status"
  | CancelOrder _ => "Error cancelling order"
  | _ => EmptyString
  end.

Definition fallback_text (op : operation) : string :=
  match op with
  | AddToCart _ _ => "Failed to add item to cart"
  | UpdateCartQuantity _ _ => "Failed to update cart"
  | RemoveFromCart _ => "Failed to remove item"
  | UpdateOrderStatus _ _ => "Failed to update order status"
  | CancelOrder _ => "Failed to cancel order"
  | _ => EmptyString
  end.

(** The message of the error toast, when the reply is a failure. *)
Definition failure_message (op : operation) (r : response) : option value :=
  match judge r with
  | Rejected => Some (Str (catch_text op))
  | Refused m => Some (or_else m (Str (fallback_text op)))
  | Accepted _ => None
  end.

Definition failure_log (r : response) (op : operation) : list string :=
  match judge r with
  | Rejected => [console_label op]
  | _ => []
  end.

(** Where an operation leaves the loading indicator: three of them show it
    and hide it again. *)
Definition loading_after (op : operation) (d : Dom.t) : Dom.t :=
  let hidden label := set_loading_indicator (Some (Indicator label "none")) d in
  match op with
  | AddToCart _ _ => hidden "Adding to cart..."
  | UpdateOrderStatus _ _ => hidden "Updating order status..."
  | CancelOrder _ => hidden "Cancelling order..."
  | _ => d
  end.

(** *** What a computation leaves alone *)

(** [keeps f m]: running [m] does not change the view [f] of the document. *)
Definition keeps {A T : Type} (f : Dom.t -> T) (m : M A) : Prop :=
  forall h p, f (dom (snd (m h p))) = f (dom p).

(** *** Failures and toasts *)

(** A toast is shown between [p] and [p']: one more element in the toast
    container. *)
Definition toast_shown (p p' : page) : Prop :=
  exists t, toasts_of p' = (toasts_of p ++ [t])%list.

(** The reading of C1 as it is worded: whichever operation calls the
    server, a failed call shows a toast. *)
Definition every_failure_shows_a_toast : Prop :=
  forall (op : operation) (h : host) (p : page),
    reaches_server h op = true ->
    failed (respond h (request_of op p)) = true ->
    toast_shown p (exec (perform op) h p).

(** *** The cart badge *)

(** What the count endpoint contributes: its [count] when that is truthy. *)
Definition count_available (h : host) : bool :=
  match respond h count_request with
  | Json data =>
      match field data "count" with
      | Some c => truthy c
      | None => false
      end
  | NetworkError | NotJson => false
  end.

(** The value [fetchCartCount] resolves to, and what it logs. *)
Definition polled_count (h : host) : value :=
  match respond h count_request with
  | Json data =>
      match field data "count" with
      | Some c => or_else c (Num 0)
      | None => Num 0
      end
  | NetworkError | NotJson => Num 0
  end.

Definition poll_log (h : host) : list string :=
  match respond h count_request with
  | Json data =>
      match field data "count" with
      | Some _ => []
      | None => ["Error fetching cart count:"]
      end
  | NetworkError | NotJson => ["Error fetching cart count:"]
  end.

(** *** Where the displayed cart values come from *)

(** The operations that write cart values: the three mutations and the
    badge refresh [updateCartBadge()]. *)
Inductive cart_action : Type :=
| CartAdd (menuItemId quantity : value)
| CartUpdate (menuItemId : value) (action : string)
| CartRemove (menuItemId : value)
| CartRefresh.

Definition act (a : cart_action) : M unit :=
  match a with
  | CartAdd id quantity => addToCart id quantity
  | CartUpdate id action => updateCartQuantity id action
  | CartRemove id => removeFromCart id
  | CartRefresh => updateCartBadge Undefined
  end.

(** The cart values a reply carries: those of the cart fields its body
    holds itself. *)
Definition served_fields : list string :=
  ["cart_count"; "new_quantity"; "cart_total"; "count"].

Definition own_field (data : value) (name : string) : option value :=
  match data with
  | Obj fields => lookup name fields
  | _ => None
  end.

Definition served (r : response) : list value :=
  match r with
  | Json data =>
      flat_map (fun k => match own_field data k with Some v => [v] | None => [] end)
               served_fields
  | NetworkError | NotJson => []
  end.

(** The cart values received while the list of issued requests grew from
    [before] to [after]: those of the replies to the requests in between. *)
Definition received (h : host) (before after : list (Z * request)) : list value :=
  flat_map (fun tr => served (respond h (snd tr)))
           (skipn (List.length before) after).


(** *** The list of search results *)

Definition is_search_row (f : fragment) : bool :=
  match f with SearchRow _ _ _ _ => true | _ => false end.

(** How many result rows the panel shows. *)
Definition rows_shown (p : page) : nat :=
  match search_results (dom p) with
  | Some pn => List.length (filter is_search_row (panel_html pn))
  | None => 0%nat
  end.

(** A value whose properties can be read. *)
Definition defined (v : value) : bool :=
  match v with Undefined | Null => false | _ => true end.

(** The reading of C8 as it is worded: some fixed limit bounds the number
    of rows shown, whatever array the server returns. *)
Definition result_rows_bounded : Prop :=
  exists limit : nat, forall (h : host) (p : page) (items : list value),
    (rows_shown (exec (displaySearchResults (Arr items)) h p) <= limit)%nat.

(** *** Polling *)

(** When the requests for [path] were issued. *)
Definition request_times (path : string) (p : page) : list Z :=
  map fst (filter (fun tr => String.eqb (req_path (snd tr)) path) (requests p)).

Definition notifications_path : string := "/dashboard/api/notifications/".

(** What one refresh does to the notification badge and menu, given the
    [length] and the markup of the snapshot: both are overwritten where
    they exist. *)
Definition replace_notifications (count : value) (markup : list fragment)
           (d : Dom.t) : Dom.t :=
  let d1 := match notification_badge d with
            | Some _ => set_notification_badge (Some (show_count count)) d
            | None => d
            end in
  match notification_menu d1 with
  | Some _ => set_notification_menu (Some markup) d1
  | None => d1
  end.

(** *** The search debounce *)

Definition search_path : string := "/menu/api/items/".

(** How many search requests have been issued. *)
Definition search_requests (p : page) : nat :=
  List.length (filter (fun tr => String.eqb (req_path (snd tr)) search_path)
                      (requests p)).

(** Consecutive keystrokes less than 300 ms apart. *)
Fixpoint spaced (events : list (Z * string)) : Prop :=
  match events with
  | (t1, _) :: rest =>
      match rest with
      | (t2, _) :: _ => t1 <= t2 < t1 + 300 /\ spaced rest
      | [] => True
      end
  | [] => True
  end.

(** The reading of C4 as it is worded: a burst of keystrokes less than
    300 ms apart produces exactly one search request. *)
Definition one_request_per_burst : Prop :=
  forall (w : world) (p : page) (s : search_box) (events : list (Z * string)),
    setupSearchListeners p = Some s ->
    events <> [] ->
    spaced events ->
    search_requests (box_page (type_in w events s)) = S (search_requests p).

(** *** Accepted state-changing operations *)

(** [data.name] on a body whose properties can be read. *)
Definition member (data : value) (name : string) : value :=
  match field data name with Some v => v | None => Undefined end.

(** The page after [updateCartBadge(count)]. *)
Definition badge_updated (count : value) (h : host) (p : page) : page :=
  match cart_badge (dom p) with
  | None => p
  | Some _ =>
      if is_null (count_or_default count)
      then Page (set_cart_badge (Some (show_count (polled_count h))) (dom p))
                (requests p ++ [(now h, count_request)])
                (errors p ++ poll_log h) (reloads p)
      else with_dom (set_cart_badge (Some (show_count (count_or_default count)))) p
  end.

(** The document after [updateCartTotal(total)]. *)
Definition total_updated (total : value) (d : Dom.t) : Dom.t :=
  match cart_total d with
  | Some _ => set_cart_total (Some (to_string total ++ " XAF")) d
  | None => d
  end.

Definition toast_added (t : toast) (d : Dom.t) : Dom.t :=
  set_toast_container (Some (toasts d ++ [t])%list) d.

(** The success toast of an operation; [updateCartQuantity] has none. *)
Definition success_toast (op : operation) (h : host) : list toast :=
  let say text := [new_toast (now h) (Str text) "success"] in
  match op with
  | AddToCart _ _ => say "Item added to cart!"
  | RemoveFromCart _ => say "Item removed from cart"
  | UpdateOrderStatus _ _ => say "Order status updated successfully"
  | CancelOrder _ => say "Order cancelled successfully"
  | _ => []
  end.

(** An id with nothing the CSS tokenizer treats specially inside a string:
    no double quote, no backslash, no line break (LF, CR, FF), no NUL. *)
Definition plain_id (id : string) : bool :=
  forallb (fun c => negb (existsb (Nat.eqb (nat_of_ascii c)) [34; 92; 10; 13; 12; 0]%nat))
          (list_ascii_of_string id).

(** Whether the attribute selector an operation builds around its id is one
    [querySelector] rejects; only [updateCartQuantity] and [removeFromCart]
    build one. *)
Definition breaks_selector (op : operation) : bool :=
  match op with
  | UpdateCartQuantity id _ | RemoveFromCart id =>
      match attribute_selector (to_string id) with
      | Malformed | Rewritten => true
      | Selects _ | SelectsNothing => false
      end
  | _ => false
  end.

(** Whether the id of an operation rewrites the selector built around it. *)
Definition rewrites_selector (op : operation) : bool :=
  match op with
  | UpdateCartQuantity id _ | RemoveFromCart id =>
      match attribute_selector (to_string id) with
      | Rewritten => true
      | Malformed | Selects _ | SelectsNothing => false
      end
  | _ => false
  end.

(** The page the [catch] block of a state-changing operation leaves when
    the exception was thrown after the reply had come. *)
Definition caught_page (op : operation) (h : host) (p : page) : page :=
  Page (toast_added (new_toast (now h) (Str (catch_text op)) "error")
                    (loading_after op (dom p)))
       (requests p ++ [(now h, request_of op p)])
       (errors p ++ [console_label op])
       (reloads p).

(** A write to the element an attribute selector finds, if it finds one. *)
Definition on_selected (found : selection) (write : string -> Dom.t -> Dom.t)
           (d : Dom.t) : Dom.t :=
  match found with
  | Selects key => write key d
  | Malformed | SelectsNothing | Rewritten => d
  end.

(** The page a state-changing operation leaves when the server accepts it
    with the body [data]. *)
Definition accepted_page (op : operation) (data : value) (h : host) (p : page)
  : page :=
  let sent := (requests p ++ [(now h, request_of op p)])%list in
  let shown d := fold_left (fun d t => toast_added t d) (success_toast op h) d in
  if breaks_selector op then caught_page op h p else
  match op with
  | AddToCart _ _ =>
      badge_updated (member data "cart_count") h
        (Page (shown (loading_after op (dom p))) sent (errors p) (reloads p))
  | UpdateCartQuantity id _ =>
      with_dom (total_updated (member data "cart_total"))
        (badge_updated (member data "cart_count") h
           (Page (on_selected (attribute_selector (to_string id))
                    (fun key d =>
                       set_quantities
                         (set_first_text key
                            (text_content (member data "new_quantity"))
                            (quantities d)) d)
                    (dom p))
                 sent (errors p) (reloads p)))
  | RemoveFromCart id =>
      with_dom shown
        (with_dom (total_updated (member data "cart_total"))
           (badge_updated (member data "cart_count") h
              (Page (on_selected (attribute_selector (to_string id))
                       (fun key d =>
                          set_cart_items (remove_first key (cart_items d)) d)
                       (dom p))
                    sent (errors p) (reloads p))))
  | UpdateOrderStatus _ _ | CancelOrder _ =>
      Page (shown (loading_after op (dom p))) sent (errors p)
           (reloads p ++ [now h + 1000])
  | _ => p
  end.

(** *** What every operation does *)

Definition is_order_operation (op : operation) : bool :=
  match op with
  | UpdateOrderStatus _ _ | CancelOrder _ => true
  | _ => false
  end.

(** The toast an operation ends with: the error toast of a failed
    state-changing call; for an accepted one the success toast, or the
    error toast of the [catch] block when the id makes a selector that
    [querySelector] rejects; none for the reading operations and for calls
    that never reach the server. *)
Definition toast_of_outcome (op : operation) (h : host) (p : page) : list toast :=
  if changes_state op && reaches_server h op then
    match failure_message op (respond h (request_of op p)) with
    | Some msg => [new_toast (now h) msg "error"]
    | None =>
        if breaks_selector op
        then [new_toast (now h) (Str (catch_text op)) "error"]
        else success_toast op h
    end
  else [].

(** The slots of the document an operation may write, blanked out.  (The
    quantities count among the slots of [removeFromCart]: a quantity
    element may sit inside the item node that is removed.) *)
Definition blank (op : operation) (d : Dom.t) : Dom.t :=
  let no_badge := set_cart_badge None in
  let no_total := set_cart_total None in
  let no_toasts := set_toast_container None in
  let no_loading := set_loading_indicator None in
  match op with
  | AddToCart _ _ => no_badge (no_loading (no_toasts d))
  | UpdateCartQuantity _ _ =>
      set_quantities [] (no_badge (no_total (no_toasts d)))
  | RemoveFromCart _ =>
      set_cart_items [] (set_quantities [] (no_badge (no_total (no_toasts d))))
  | UpdateOrderStatus _ _ | CancelOrder _ => no_loading (no_toasts d)
  | SearchMenu _ => set_search_results None d
  | LoadNotifications => set_notification_badge None (set_notification_menu None d)
  | UpdateOrderStats => set_stats [] d
  | FetchCartCount => d
  end.

(** *** Requests *)

(** A request as the reading operations send it: a bare GET. *)
Definition plain_get (r : request) : Prop :=
  req_method r = GET /\ req_headers r = [] /\ req_body r = None.

(** A request as the state-changing operations send it: a POST with the
    page's token in [X-CSRFToken]. *)
Definition post_with_token (token : string) (r : request) : Prop :=
  req_method r = POST /\ In ("X-CSRFToken", token) (req_headers r).

(** *** Order statistics *)


(** *** Search results *)

(** The markup [displaySearchResults] writes; [None] when it throws. *)
Definition result_markup (items : value) : option (list fragment) :=
  match field items "length" with
  | None => None
  | Some len =>
      if is_zero len then Some [NoItemsFound]
      else render_rows search_row items
  end.

(** *** Keystrokes *)

(** Consecutive keystrokes more than 300 ms apart. *)
Fixpoint separated (events : list (Z * string)) : Prop :=
  match events with
  | (t1, _) :: rest =>
      match rest with
      | (t2, _) :: _ => t1 + 300 < t2 /\ separated rest
      | [] => True
      end
  | [] => True
  end.

(** One debounced search: the text is in the field and [searchMenu] runs
    300 ms after the keystroke. *)
Definition search_after (w : world) (p : page) (e : Z * string) : page :=
  exec (searchMenu (snd e)) (at_time w (fst e + 300))
       (with_dom (set_menu_search (Some (snd e))) p).

(** *** Clicks *)

(** The classes the delegated listeners of an event type react to. *)
Definition handled_classes (type : event_type) : list string :=
  match type with
  | Click => ["add-to-cart-btn"; "cart-qty-increase"; "cart-qty-decrease";
              "cart-remove-btn"; "cancel-order-btn"]
  | Change => ["order-status-select"]
  end.

(** The button of a result row, and the icon inside it, as the template of
    [displaySearchResults] writes them. *)
Definition row_button (id : string) : node :=
  Node ["btn"; "btn-sm"; "btn-primary"; "add-to-cart-btn"]
          [("menuItemId", id)] EmptyString.

Definition row_icon : node := Node ["bi"; "bi-plus"] [] EmptyString.

(** *** A refresh while the network is down *)

Definition has_cart_badge (p : page) : bool :=
  match cart_badge (dom p) with Some _ => true | None => false end.

(** The page one refresh leaves when every request fails. *)
Definition after_outage (h : host) (p : page) : page :=
  let pick {A} (l : list A) := if has_cart_badge p then l else [] in
  Page (if has_cart_badge p
        then set_cart_badge (Some (Badge "0" "none")) (dom p) else dom p)
       (requests p ++ pick [(now h, count_request)]
          ++ [(now h, notifications_request); (now h, stats_request)])
       (errors p ++ pick ["Error fetching cart count:"]
          ++ ["Error loading notifications:"; "Error updating order stats:"])
       (reloads p).

(* ===================================================================== *)
(** ** Sample runs *)
(* ===================================================================== *)

Example to_string_array :
  Js.to_string (Js.Arr [Js.Num 1; Js.Null; Js.Str "a"]) = "1,,a".
Proof. reflexivity. Qed.

Example gt_zero_samples :
  map Js.gt_zero
      [Js.Num 3; Js.Num 0; Js.Num (-2); Js.Str " 7 "; Js.Str "abc";
       Js.Bool true; Js.Undefined; Js.Arr []; Js.Arr [Js.Num 5]; Js.Obj []]
  = [true; false; false; true; false; true; false; false; true; false].
Proof. reflexivity. Qed.

Example gt_zero_literals :
  map (fun s => Js.gt_zero (Js.Str s))
      ["3.0"; "2.5"; "1e3"; "0x10"; "Infinity"; "-Infinity"; ".5"; "5.";
       "0.0"; "-2.5"; "1e-400"; "1e-300"; "0b101"; "0o17"; "-0x10"; "1e";
       "."; "+"; "12px"; "infinity"]
  = [true; true; true; true; true; false; true; true;
     false; false; false; true; true; true; false; false;
     false; false; false; false].
Proof. vm_compute. reflexivity. Qed.

Example parseInt_samples :
  map Js.parseInt [Js.Num 1; Js.Str "2"; Js.Str " -12px"; Js.Str "0x1f";
                   Js.Str "many"; Js.Undefined]
  = [Some 1; Some 2; Some (-12); Some 31; None; None].
Proof. reflexivity. Qed.

Example keys_samples :
  (Js.keys (Js.Obj [("pending", Js.Num 2); ("ready", Js.Num 1)]),
   Js.keys (Js.Arr [Js.Null; Js.Null]), Js.keys Js.Null)
  = (Some ["pending"; "ready"], Some ["0"; "1"], None).
Proof. reflexivity. Qed.

Example addToCart_success_run :
  let p := Eff.exec (Dashboard.addToCart (Js.Str "7") Js.Undefined)
                    (Sample.always 1000 Sample.added true) Sample.cart_page in
  (Dom.cart_badge (dom p), Dom.toasts (dom p), Dom.loading_indicator (dom p),
   map snd (requests p))
  = (Some (Dom.Badge "3" "inline"),
     [Dom.Toast "toast-1000" "bg-success" "Item added to cart!"],
     Some (Dom.Indicator "Adding to cart..." "none"),
     [Request POST "/orders/api/cart/add/" []
        [("Content-Type", "application/json"); ("X-CSRFToken", "tok")]
        (Some (Js.Obj [("menu_item_id", Js.Str "7"); ("quantity", Js.Num 1)]))]).
Proof. reflexivity. Qed.

Example addToCart_out_of_stock_run :
  let p := Eff.exec (Dashboard.addToCart (Js.Str "7") Js.Undefined)
                    (Sample.always 1000 Sample.out_of_stock true) Sample.cart_page in
  (Dom.cart_badge (dom p), Dom.toasts (dom p))
  = (Some (Dom.Badge "2" "inline"),
     [Dom.Toast "toast-1000" "bg-danger" "Out of stock"]).
Proof. reflexivity. Qed.

(* ===================================================================== *)
(** ** Properties *)
(* ===================================================================== *)

(** Unfold the monad and the browser primitives. *)
Ltac unfold_eff :=
  unfold exec, try_finally, try_catch, bind, ret, throw, ask, get_dom,
    modify_dom, lift, prop, console_error, fetch_json, reload_after,
    ask_confirm, getCSRFToken, showLoading, hideLoading, showToast,
    updateCartTotal, updateNotificationBadge, with_dom in *.

(** *** Property access *)

(** Once one property of a value has been read, every other read succeeds:
    only [null] and [undefined] throw. *)
Lemma field_defined (v x : value) (name other : string) :
  field v name = Some x -> exists y, field v other = Some y.
Proof.
  destruct v; cbn; intros H; try discriminate; eauto.
Qed.

Lemma class_add_In (c : string) (l : list string) : In c (class_add c l).
Proof.
  unfold class_add. destruct (existsb (String.eqb c) l) eqn:E.
  - apply existsb_exists in E. destruct E as [x [Hin Heq]].
    apply String.eqb_eq in Heq. now subst.
  - apply in_or_app. right. now left.
Qed.

(** *** Declined confirmations *)

(** C5: when the user declines the confirmation prompt, [removeFromCart] and
    [cancelOrder] return at once: the page (document, issued requests,
    console, scheduled reloads) is the one they started from. *)
Theorem declined_confirmation_is_noop (h : host) (p : page) (id : value) :
  (confirm h "Remove this item from cart?" = false ->
   removeFromCart id h p = (Some tt, p)) /\
  (confirm h "Are you sure you want to cancel this order?" = false ->
   cancelOrder id h p = (Some tt, p)).
Proof.
  split; intros H; unfold removeFromCart, cancelOrder; unfold_eff;
    rewrite H; reflexivity.
Qed.

Lemma declined_confirmation_is_noop_witness :
  removeFromCart (Str "7") (Sample.always 0 Sample.added false) Sample.cart_page
  = (Some tt, Sample.cart_page) /\
  cancelOrder (Str "12") (Sample.always 0 Sample.added false) Sample.cart_page
  = (Some tt, Sample.cart_page).
Proof.
  split.
  - apply (proj1 (declined_confirmation_is_noop
                    (Sample.always 0 Sample.added false) Sample.cart_page (Str "7"))).
    reflexivity.
  - apply (proj2 (declined_confirmation_is_noop
                    (Sample.always 0 Sample.added false) Sample.cart_page (Str "12"))).
    reflexivity.
Defined.

(** *** Short search queries *)

(** C3: a query of fewer than 2 characters issues no request; the results
    panel, when it exists, gets the class [d-none] and keeps its content;
    nothing else on the page changes. *)
Theorem short_query_hides_results (h : host) (p : page) (query : string) :
  (String.length query < 2)%nat ->
  let p' := exec (searchMenu query) h p in
  requests p' = requests p /\
  p' = with_dom hide_results p /\
  (forall pn, search_results (dom p) = Some pn ->
     exists pn', search_results (dom p') = Some pn' /\
                 In "d-none" (panel_classes pn') /\
                 panel_html pn' = panel_html pn).
Proof.
  intros Hlen p'. subst p'. unfold searchMenu.
  assert ((Z.of_nat (String.length query) <? 2) = true) as -> by (apply Z.ltb_lt; lia).
  unfold_eff. cbn. repeat split.
  intros pn Hpn. unfold hide_results. rewrite Hpn. cbn.
  eexists. split; [reflexivity|]. cbn. split; [apply class_add_In | reflexivity].
Qed.

Lemma short_query_hides_results_witness :
  let p' := exec (searchMenu "p") (Sample.always 0 Sample.added true) Sample.cart_page in
  requests p' = [] /\
  search_results (dom p') = Some (Panel [PageMarkup "results"] ["dropdown"; "d-none"]).
Proof.
  pose proof (short_query_hides_results
                (Sample.always 0 Sample.added true) Sample.cart_page "p") as H.
  cbn zeta in H. destruct H as [Hreq [Hpage _]]; [cbn; lia|].
  split; [exact Hreq | rewrite Hpage; reflexivity].
Defined.

(** *** Failed state-changing operations *)

Lemma csrf_token_loading (x : option indicator) (d : Dom.t) :
  csrf_token (set_loading_indicator x d) = csrf_token d.
Proof. reflexivity. Qed.

(** A failed state-changing operation, in full: one request, one error
    toast, the loading indicator hidden if it was used, a console line when
    the failure was thrown, and nothing else. *)
Lemma failed_mutation (h : host) (p : page) (op : operation) (msg : value) :
  changes_state op = true ->
  reaches_server h op = true ->
  failure_message op (respond h (request_of op p)) = Some msg ->
  perform op h p =
    (Some tt,
     Page (set_toast_container
             (Some (toasts (dom p) ++ [new_toast (now h) msg "error"])%list)
             (loading_after op (dom p)))
          (requests p ++ [(now h, request_of op p)])
          (errors p ++ failure_log (respond h (request_of op p)) op)
          (reloads p)).
Proof.
  intros Hop Hgo Hmsg.
  destruct op; try discriminate Hop; cbn in Hgo;
    unfold failure_message, failure_log, judge in *;
    cbn [perform request_of loading_after];
    unfold addToCart, updateCartQuantity, removeFromCart, updateOrderStatus,
      cancelOrder; unfold_eff; rewrite ?Hgo; cbn;
    rewrite ?csrf_token_loading;
    destruct (respond h _) as [| |data]; cbn;
    try (injection Hmsg as <-; rewrite ?app_nil_r; reflexivity);
    destruct (field data "success") as [s|] eqn:Es; cbn;
    try (injection Hmsg as <-; rewrite ?app_nil_r; reflexivity);
    destruct (field_defined data s "success" "message" Es) as [m Em];
    rewrite Em in *;
    destruct (truthy s); try discriminate Hmsg; cbn;
    injection Hmsg as <-; rewrite ?app_nil_r; reflexivity.
Qed.

(** *** What a computation leaves alone *)

Section Keeps.
Context {T : Type} (f : Dom.t -> T).

Lemma keeps_ret {A} (a : A) : keeps f (ret a).
Proof. intros h p. reflexivity. Qed.

Lemma keeps_throw {A} : keeps f (@throw A).
Proof. intros h p. reflexivity. Qed.

Lemma keeps_lift {A} (x : option A) : keeps f (lift x).
Proof. intros h p. reflexivity. Qed.

Lemma keeps_prop (v : value) (name : string) : keeps f (prop v name).
Proof. intros h p. reflexivity. Qed.

Lemma keeps_ask : keeps f ask.
Proof. intros h p. reflexivity. Qed.

Lemma keeps_get_dom : keeps f get_dom.
Proof. intros h p. reflexivity. Qed.

Lemma keeps_console_error (label : string) : keeps f (console_error label).
Proof. intros h p. reflexivity. Qed.

Lemma keeps_reload_after (delay : Z) : keeps f (reload_after delay).
Proof. intros h p. reflexivity. Qed.

Lemma keeps_ask_confirm (question : string) : keeps f (ask_confirm question).
Proof. intros h p. reflexivity. Qed.

Lemma keeps_fetch_json (r : request) : keeps f (fetch_json r).
Proof. intros h p. unfold fetch_json. destruct (respond h r); reflexivity. Qed.

Lemma keeps_modify_dom (g : Dom.t -> Dom.t) :
  (forall d, f (g d) = f d) -> keeps f (modify_dom g).
Proof. intros Hg h p. cbn. apply Hg. Qed.

Lemma keeps_bind {A B} (m : M A) (k : A -> M B) :
  keeps f m -> (forall a, keeps f (k a)) -> keeps f (bind m k).
Proof.
  intros Hm Hk h p. unfold bind. specialize (Hm h p).
  destruct (m h p) as [[a|] p1]; cbn in *; [|exact Hm].
  rewrite (Hk a h p1). exact Hm.
Qed.

Lemma keeps_try_catch {A} (body handler : M A) :
  keeps f body -> keeps f handler -> keeps f (try_catch body handler).
Proof.
  intros Hb Hh h p. unfold try_catch. specialize (Hb h p).
  destruct (body h p) as [[a|] p1]; cbn in *; [exact Hb|].
  rewrite (Hh h p1). exact Hb.
Qed.

Lemma keeps_try_finally {A} (body : M A) (cleanup : M unit) :
  keeps f body -> keeps f cleanup -> keeps f (try_finally body cleanup).
Proof.
  intros Hb Hc h p. unfold try_finally. specialize (Hb h p).
  destruct (body h p) as [r p1]. specialize (Hc h p1).
  destruct (cleanup h p1) as [[u|] p2]; cbn in *; congruence.
Qed.
End Keeps.

Create HintDb keeps.
#[local] Hint Resolve keeps_ret keeps_throw keeps_lift keeps_prop keeps_ask keeps_get_dom
  keeps_console_error keeps_reload_after keeps_ask_confirm keeps_fetch_json
  : keeps.

(** Walk through a method: split at every sequencing and handler, take the
    branches of every test, and check each write to the document. *)
Ltac keeps_step :=
  match goal with
  | |- keeps _ (bind _ _) => apply keeps_bind; [|intros ?]
  | |- keeps _ (try_catch _ _) => apply keeps_try_catch
  | |- keeps _ (try_finally _ _) => apply keeps_try_finally
  | |- keeps _ (modify_dom _) =>
      apply keeps_modify_dom; intros ?;
      repeat match goal with
             | |- context [match ?x with _ => _ end] => destruct x
             end; reflexivity
  | |- keeps _ (match ?x with _ => _ end) => destruct x
  | |- keeps _ _ => solve [auto with keeps]
  end.

Ltac keeps_walk := repeat keeps_step.

Lemma showToast_keeps {T} (f : Dom.t -> T) (message : value) (type : string) :
  (forall x d, f (set_toast_container x d) = f d) ->
  keeps f (showToast message type).
Proof.
  intros Hf. unfold showToast. apply keeps_bind; [auto with keeps|]. intros h.
  apply keeps_modify_dom. intros d. apply Hf.
Qed.

Lemma fetchCartCount_keeps {T} (f : Dom.t -> T) : keeps f fetchCartCount.
Proof. unfold fetchCartCount. keeps_walk. Qed.

Lemma displaySearchResults_keeps_toasts (items : value) :
  keeps toasts (displaySearchResults items).
Proof. unfold displaySearchResults. keeps_walk. Qed.

Lemma searchMenu_keeps_toasts (query : string) : keeps toasts (searchMenu query).
Proof.
  pose proof displaySearchResults_keeps_toasts.
  unfold searchMenu. keeps_walk.
Qed.

Lemma loadNotifications_keeps_toasts : keeps toasts loadNotifications.
Proof.
  unfold loadNotifications, displayNotifications, updateNotificationBadge.
  keeps_walk.
Qed.

Lemma updateOrderStats_keeps_toasts : keeps toasts updateOrderStats.
Proof. unfold updateOrderStats. keeps_walk. Qed.

(** The four reading operations never touch the toasts. *)
Lemma read_keeps_toasts (op : operation) :
  changes_state op = false -> keeps toasts (perform op).
Proof.
  pose proof searchMenu_keeps_toasts. pose proof loadNotifications_keeps_toasts.
  pose proof updateOrderStats_keeps_toasts.
  pose proof (fetchCartCount_keeps toasts).
  destruct op; intros Hop; try discriminate Hop; cbn [perform]; keeps_walk.
Qed.

(** A reading operation whose request or decoding fails: the request was
    sent, a line went to the console, the document is untouched. *)
Lemma failed_read (h : host) (p : page) (op : operation) :
  changes_state op = false ->
  reaches_server h op = true ->
  (respond h (request_of op p) = NetworkError \/
   respond h (request_of op p) = NotJson) ->
  exec (perform op) h p =
    Page (dom p) (requests p ++ [(now h, request_of op p)])
         (errors p ++ [console_label op]) (reloads p).
Proof.
  intros Hop Hgo Hr.
  destruct op; try discriminate Hop; cbn in Hgo; cbn [perform request_of] in *;
    unfold searchMenu, loadNotifications, updateOrderStats, fetchCartCount;
    rewrite ?(negb_true_iff _) in Hgo; rewrite ?Hgo;
    unfold_eff; cbn; destruct Hr as [-> | ->]; reflexivity.
Qed.

(** *** Failures and toasts *)

(** C1, as worded, fails: [searchMenu("rice")] on the sample page with the
    network down shows no toast (nor does it with a [success: false]
    payload). *)
Lemma failed_search_shows_no_toast : ~ every_failure_shows_a_toast.
Proof.
  intros H.
  destruct (H (SearchMenu "rice") (Sample.always 0 NetworkError true)
              Sample.cart_page eq_refl eq_refl) as [t Ht].
  vm_compute in Ht. discriminate Ht.
Qed.

Example refused_search_shows_no_toast :
  let h := Sample.always 0 Sample.out_of_stock true in
  let p' := exec (perform (SearchMenu "rice")) h Sample.cart_page in
  (failed (respond h (request_of (SearchMenu "rice") Sample.cart_page)),
   toasts_of p', errors p')
  = (true, [], ["Search error:"]).
Proof. reflexivity. Qed.

(** C1, amended: a failed call of one of the five state-changing operations
    (add, update, remove, update status, cancel) adds exactly one error
    toast, with the generic text, the server's message or the fallback;
    a failed call of one of the four reading operations (search,
    notifications, order stats, cart count) adds no toast, and when the
    request or its decoding fails it only writes a line to the console. *)
Theorem failure_toast_by_kind (op : operation) (h : host) (p : page) :
  reaches_server h op = true ->
  failed (respond h (request_of op p)) = true ->
  let reply := respond h (request_of op p) in
  let p' := exec (perform op) h p in
  if changes_state op then
    exists msg,
      failure_message op reply = Some msg /\
      toasts_of p' = (toasts_of p ++ [new_toast (now h) msg "error"])%list /\
      toast_class (new_toast (now h) msg "error") = "bg-danger"
  else
    toasts_of p' = toasts_of p /\
    (reply = NetworkError \/ reply = NotJson ->
     dom p' = dom p /\ errors p' = (errors p ++ [console_label op])%list).
Proof.
  intros Hgo Hfail reply p'. subst reply p'.
  destruct (changes_state op) eqn:Hop.
  - assert (exists msg, failure_message op (respond h (request_of op p)) = Some msg)
      as [msg Hmsg].
    { unfold failed in Hfail. unfold failure_message.
      destruct (judge (respond h (request_of op p))); try discriminate; eauto. }
    exists msg. split; [exact Hmsg|]. split; [|reflexivity].
    unfold exec. rewrite (failed_mutation h p op msg Hop Hgo Hmsg). cbn.
    unfold toasts_of. destruct op; reflexivity.
  - split.
    + apply (read_keeps_toasts op Hop h p).
    + intros Hr. unfold exec in *.
      pose proof (failed_read h p op Hop Hgo Hr) as E. unfold exec in E.
      rewrite E. split; reflexivity.
Qed.

Lemma failure_toast_by_kind_witness :
  toasts_of (exec (perform (CancelOrder (Str "12")))
                  (Sample.always 5 Sample.out_of_stock true) Sample.cart_page)
  = [Toast "toast-5" "bg-danger" "Out of stock"] /\
  toasts_of (exec (perform LoadNotifications)
                  (Sample.always 5 NotJson true) Sample.cart_page) = [].
Proof.
  split.
  - destruct (failure_toast_by_kind (CancelOrder (Str "12"))
                (Sample.always 5 Sample.out_of_stock true) Sample.cart_page
                eq_refl eq_refl) as [msg [Hmsg [Ht _]]].
    injection Hmsg as <-. exact Ht.
  - exact (proj1 (failure_toast_by_kind LoadNotifications
                    (Sample.always 5 NotJson true) Sample.cart_page
                    eq_refl eq_refl)).
Defined.

(** *** A refused cart mutation *)

(** C2: when the server answers a cart mutation (add, update quantity,
    remove) with a falsy [success], the badge with its visibility, the
    per-item quantities, the total and the item nodes are what they were;
    the document differs only by the error toast (and, for [addToCart], by
    the loading indicator, which is hidden again). *)
Theorem refused_cart_mutation_keeps_cart
        (op : operation) (h : host) (p : page) (data s : value) :
  is_cart_mutation op = true ->
  reaches_server h op = true ->
  respond h (request_of op p) = Json data ->
  field data "success" = Some s ->
  truthy s = false ->
  let p' := exec (perform op) h p in
  cart_view (dom p') = cart_view (dom p) /\
  exists m,
    field data "message" = Some m /\
    dom p' =
      set_toast_container
        (Some (toasts (dom p)
                 ++ [new_toast (now h) (or_else m (Str (fallback_text op))) "error"])%list)
        (loading_after op (dom p)).
Proof.
  intros Hop Hgo Hr Hs Ht p'. subst p'.
  destruct (field_defined data s "success" "message" Hs) as [m Hm].
  assert (changes_state op = true) as Hch by (destruct op; auto; discriminate).
  assert (failure_message op (respond h (request_of op p))
          = Some (or_else m (Str (fallback_text op)))) as Hmsg.
  { unfold failure_message, judge. rewrite Hr, Hs, Ht, Hm. reflexivity. }
  unfold exec. rewrite (failed_mutation h p op _ Hch Hgo Hmsg). cbn.
  split.
  - destruct op; try discriminate Hop; reflexivity.
  - exists m. split; [exact Hm | reflexivity].
Qed.

Lemma refused_cart_mutation_keeps_cart_witness :
  let p' := exec (perform (UpdateCartQuantity (Str "7") "increase"))
                 (Sample.always 9 Sample.out_of_stock true) Sample.cart_page in
  cart_view (dom p') = cart_view Sample.cart_dom /\
  toasts (dom p') = [Toast "toast-9" "bg-danger" "Out of stock"].
Proof.
  destruct (refused_cart_mutation_keeps_cart
              (UpdateCartQuantity (Str "7") "increase")
              (Sample.always 9 Sample.out_of_stock true) Sample.cart_page
              (Obj [("success", Bool false); ("message", Str "Out of stock")])
              (Bool false) eq_refl eq_refl eq_refl eq_refl eq_refl)
    as [Hview [m [Hm Hdom]]].
  split; [exact Hview|].
  injection Hm as <-. rewrite Hdom. reflexivity.
Defined.

(** *** Adding to the cart *)

(** C6: [addToCart] always ends with the loading indicator hidden.  On a
    truthy [success] with [cart_count = n] it shows the success toast and,
    where the badge exists, writes [n] in it; on a falsy [success] it shows
    an error toast with the server's message or the fallback; when the
    request or the decoding of its answer fails it shows the generic error
    toast. *)
Theorem addToCart_outcomes (h : host) (p : page) (id quantity : value) :
  let reply := respond h (request_of (AddToCart id quantity) p) in
  let p' := exec (addToCart id quantity) h p in
  loading_indicator (dom p') = Some (Indicator "Adding to cart..." "none") /\
  (forall data s n,
      reply = Json data -> field data "success" = Some s -> truthy s = true ->
      field data "cart_count" = Some (Num n) ->
      toasts_of p' =
        (toasts_of p ++ [new_toast (now h) (Str "Item added to cart!") "success"])%list /\
      (forall b, cart_badge (dom p) = Some b ->
         cart_badge (dom p') =
           Some (Badge (dec n) (if 0 <? n then "inline" else "none")))) /\
  (forall data s,
      reply = Json data -> field data "success" = Some s -> truthy s = false ->
      exists m, field data "message" = Some m /\
      toasts_of p' =
        (toasts_of p
           ++ [new_toast (now h) (or_else m (Str "Failed to add item to cart")) "error"])%list) /\
  (reply = NetworkError \/ reply = NotJson ->
   toasts_of p' =
     (toasts_of p ++ [new_toast (now h) (Str "Error adding item to cart") "error"])%list).
Proof.
  intros reply p'. subst reply p'. cbn [request_of]. unfold addToCart.
  split; [|split; [|split]].
  - unfold_eff. cbn. rewrite csrf_token_loading.
    destruct (respond h _) as [| |data]; cbn; try reflexivity.
    destruct (field data "success") as [s|]; cbn; try reflexivity.
    destruct (truthy s); cbn.
    + destruct (field data "cart_count") as [c|]; cbn; try reflexivity.
      unfold updateCartBadge, fetchCartCount. unfold_eff. cbn.
      destruct (cart_badge (dom p)); cbn; try reflexivity.
      destruct (negb (is_null (count_or_default c))); cbn; try reflexivity.
      destruct (respond h count_request) as [| |cd]; cbn; try reflexivity.
      destruct (field cd "count"); reflexivity.
    + destruct (field data "message"); reflexivity.
  - intros data s n Hr Hs Ht Hc.
    unfold_eff. cbn. rewrite csrf_token_loading, Hr. cbn. rewrite Hs. cbn.
    rewrite Ht. cbn. rewrite Hc. cbn. unfold updateCartBadge. unfold_eff. cbn.
    split.
    + destruct (cart_badge (dom p)); reflexivity.
    + intros b Hb. rewrite Hb. reflexivity.
  - intros data s Hr Hs Ht.
    destruct (field_defined data s "success" "message" Hs) as [m Hm].
    exists m. split; [exact Hm|].
    unfold_eff. cbn. rewrite csrf_token_loading, Hr. cbn. rewrite Hs. cbn.
    rewrite Ht. cbn. rewrite Hm. reflexivity.
  - intros [Hr|Hr]; unfold_eff; cbn; rewrite csrf_token_loading, Hr; reflexivity.
Qed.

Lemma addToCart_outcomes_witness :
  let ok := exec (addToCart (Str "7") Undefined)
                 (Sample.always 1000 Sample.added true) Sample.cart_page in
  let ko := exec (addToCart (Str "7") Undefined)
                 (Sample.always 1000 Sample.out_of_stock true) Sample.cart_page in
  (cart_badge (dom ok) = Some (Badge "3" "inline") /\
   toasts_of ok = [Toast "toast-1000" "bg-success" "Item added to cart!"]) /\
  toasts_of ko = [Toast "toast-1000" "bg-danger" "Out of stock"].
Proof.
  split.
  - destruct (addToCart_outcomes (Sample.always 1000 Sample.added true)
                Sample.cart_page (Str "7") Undefined) as [_ [Hok _]].
    destruct (Hok (Obj [("success", Bool true); ("cart_count", Num 3)])
                  (Bool true) 3 eq_refl eq_refl eq_refl eq_refl) as [Ht Hb].
    split; [exact (Hb (Badge "2" "inline") eq_refl) | exact Ht].
  - destruct (addToCart_outcomes (Sample.always 1000 Sample.out_of_stock true)
                Sample.cart_page (Str "7") Undefined) as [_ [_ [Hko _]]].
    destruct (Hko (Obj [("success", Bool false); ("message", Str "Out of stock")])
                  (Bool false) eq_refl eq_refl eq_refl) as [m [Hm Ht]].
    injection Hm as <-. exact Ht.
Defined.

(** *** The cart badge *)

Lemma fetchCartCount_run (h : host) (p : page) :
  fetchCartCount h p =
    (Some (polled_count h),
     Page (dom p) (requests p ++ [(now h, count_request)])
          (errors p ++ poll_log h) (reloads p)).
Proof.
  unfold fetchCartCount, polled_count, poll_log. unfold_eff. cbn.
  destruct (respond h count_request) as [| |data]; cbn; try reflexivity.
  destruct (field data "count"); cbn; rewrite ?app_nil_r; reflexivity.
Qed.

(** [updateCartBadge] in full: nothing without a badge; the given count
    when there is one; otherwise the polled count. *)
Lemma updateCartBadge_run (count : value) (h : host) (p : page) :
  updateCartBadge count h p =
    (Some tt,
     match cart_badge (dom p) with
     | None => p
     | Some _ =>
         if is_null (count_or_default count)
         then Page (set_cart_badge (Some (show_count (polled_count h))) (dom p))
                   (requests p ++ [(now h, count_request)])
                   (errors p ++ poll_log h) (reloads p)
         else with_dom (set_cart_badge (Some (show_count (count_or_default count)))) p
     end).
Proof.
  unfold updateCartBadge. unfold bind at 1. unfold get_dom at 1.
  destruct (cart_badge (dom p)); [|reflexivity].
  destruct (is_null (count_or_default count)); cbn [negb]; [|reflexivity].
  unfold bind. rewrite fetchCartCount_run. reflexivity.
Qed.

Lemma polled_count_unavailable (h : host) :
  count_available h = false -> polled_count h = Num 0.
Proof.
  unfold count_available, polled_count, or_else.
  destruct (respond h count_request) as [| |data]; try reflexivity.
  destruct (field data "count") as [c|]; try reflexivity.
  intros ->. reflexivity.
Qed.

(** C10: when the count request fails, or its answer carries no truthy
    [count], [fetchCartCount] resolves to 0 and the badge update that
    follows writes 0 in the badge and hides it, whatever it showed before.
    After any badge update the badge is shown ([inline]) exactly when the
    count written in it is greater than 0, and hidden ([none]) otherwise. *)
Theorem failed_count_poll_hides_badge (h : host) (p : page) (b : badge) :
  cart_badge (dom p) = Some b ->
  (count_available h = false ->
   fst (fetchCartCount h p) = Some (Num 0) /\
   cart_badge (dom (exec (updateCartBadge Undefined) h p))
   = Some (Badge "0" "none")) /\
  (forall count, exists shown display,
      cart_badge (dom (exec (updateCartBadge count) h p))
      = Some (Badge (text_content shown) display) /\
      (display = "inline" <-> gt_zero shown = true) /\
      (display = "none" <-> gt_zero shown = false)).
Proof.
  intros Hb. split.
  - intros Hc. rewrite fetchCartCount_run. cbn [fst].
    rewrite (polled_count_unavailable h Hc). split; [reflexivity|].
    unfold exec. rewrite updateCartBadge_run, Hb. cbn.
    rewrite (polled_count_unavailable h Hc). reflexivity.
  - intros count. unfold exec. rewrite updateCartBadge_run, Hb.
    destruct (is_null (count_or_default count)); cbn;
      eexists; eexists; (split; [reflexivity|]);
      match goal with |- context [gt_zero ?v] => destruct (gt_zero v) end;
      repeat split; intros; try reflexivity; discriminate.
Qed.

Lemma failed_count_poll_hides_badge_witness :
  cart_badge (dom (exec (updateCartBadge Undefined)
                        (Sample.always 0 NetworkError true) Sample.cart_page))
  = Some (Badge "0" "none").
Proof.
  exact (proj2 (proj1 (failed_count_poll_hides_badge
                         (Sample.always 0 NetworkError true) Sample.cart_page
                         (Badge "2" "inline") eq_refl) eq_refl)).
Defined.

(** *** Where the displayed cart values come from *)






#[local] Arguments updateCartBadge : simpl never.
#[local] Arguments received : simpl never.
#[local] Arguments served : simpl never.






(** Name a served value as the source of what is displayed. *)
Ltac from_server v :=
  right; left; exists v; split;
  [ rewrite ?in_app_iff; solve [auto] | reflexivity ].



(** So does the badge: [updateCartBadge()] with the network down receives
    nothing and writes a hidden 0 of the client's own. *)
Example hidden_zero_is_the_clients :
  let h := Sample.always 0 NetworkError true in
  let p' := exec (act CartRefresh) h Sample.cart_page in
  cart_badge (dom p') = Some (Badge "0" "none") /\
  received h (requests Sample.cart_page) (requests p') = [].
Proof. split; reflexivity. Qed.

Example absent_total_reads_undefined :
  cart_total (dom (exec (act (CartUpdate (Str "7") "increase"))
                        (Sample.always 0 Sample.added true) Sample.cart_page))
  = Some "undefined XAF".
Proof. reflexivity. Qed.




(** *** The list of search results *)

Lemma traverse_length {A B} (f : A -> option B) (l : list A) (r : list B) :
  traverse f l = Some r -> List.length r = List.length l.
Proof.
  revert r. induction l as [|x l IH]; cbn; intros r H.
  - injection H as <-. reflexivity.
  - destruct (f x); [|discriminate]. destruct (traverse f l); [|discriminate].
    injection H as <-. cbn. f_equal. now apply IH.
Qed.

Lemma traverse_Forall {A B} (f : A -> option B) (P : B -> Prop) (l : list A)
      (r : list B) :
  (forall x y, f x = Some y -> P y) -> traverse f l = Some r -> Forall P r.
Proof.
  intros Hf. revert r. induction l as [|x l IH]; cbn; intros r H.
  - injection H as <-. constructor.
  - destruct (f x) eqn:Ex; [|discriminate].
    destruct (traverse f l); [|discriminate].
    injection H as <-. constructor; eauto.
Qed.

Lemma traverse_defined {A B} (f : A -> option B) (ok : A -> bool) (l : list A) :
  (forall x, ok x = true -> exists y, f x = Some y) ->
  forallb ok l = true -> exists r, traverse f l = Some r.
Proof.
  intros Hf. induction l as [|x l IH]; cbn; intros H; [eauto|].
  apply andb_true_iff in H. destruct H as [Hx Hl].
  destruct (Hf x Hx) as [y ->]. destruct (IH Hl) as [r ->]. eauto.
Qed.

Lemma field_of_defined (v : value) (name : string) :
  defined v = true -> exists x, field v name = Some x.
Proof. destruct v; cbn; intros H; try discriminate; eauto. Qed.

Lemma search_row_defined (item : value) :
  defined item = true -> exists row, search_row item = Some row.
Proof.
  intros H. unfold search_row.
  destruct (field_of_defined item "image" H) as [? ->].
  destruct (field_of_defined item "name" H) as [? ->].
  destruct (field_of_defined item "price" H) as [? ->].
  destruct (field_of_defined item "id" H) as [? ->]. eauto.
Qed.

Lemma search_row_is_row (item : value) (row : fragment) :
  search_row item = Some row -> is_search_row row = true.
Proof.
  unfold search_row.
  destruct (field item "image"), (field item "name"), (field item "price"),
    (field item "id"); intros H; try discriminate.
  injection H as <-. reflexivity.
Qed.

Lemma filter_all {A} (f : A -> bool) (l : list A) :
  Forall (fun x => f x = true) l -> filter f l = l.
Proof.
  induction 1 as [|x l Hx _ IH]; cbn; [reflexivity|]. now rewrite Hx, IH.
Qed.

(** [displaySearchResults] on a non-empty array whose rows all render. *)
Lemma displaySearchResults_rows (h : host) (p : page) (pn : panel)
      (items : list value) (rows : list fragment) :
  search_results (dom p) = Some pn ->
  items <> [] ->
  traverse search_row items = Some rows ->
  exec (displaySearchResults (Arr items)) h p =
    with_dom (set_search_results
                (Some (Panel rows (class_remove "d-none" (panel_classes pn))))) p.
Proof.
  intros Hpn Hne Hrows. unfold displaySearchResults. unfold_eff. cbn.
  rewrite Hpn. cbn.
  destruct items as [|x items]; [congruence|].
  cbn [List.length is_zero Z.of_nat]. cbn [render_rows]. rewrite Hrows.
  reflexivity.
Qed.

Lemma repeat_rows (n : nat) (image name price id : string) :
  traverse search_row
           (repeat (Obj [("image", Str image); ("name", Str name);
                         ("price", Str price); ("id", Str id)]) n)
  = Some (repeat (SearchRow (to_string (or_else (Str image)
                               (Str "/static/images/placeholder.jpg")))
                            name price id) n).
Proof.
  induction n as [|n IH]; [reflexivity|].
  cbn [repeat traverse]. rewrite IH. reflexivity.
Qed.

(** C8, as worded, fails: whatever the limit, a response with one more
    item than the limit (here copies of one rice dish, on the sample page)
    is rendered with one row per item. *)
Lemma result_rows_unbounded : ~ result_rows_bounded.
Proof.
  intros [limit H].
  set (dish := Obj [("image", Str "rice.jpg"); ("name", Str "Rice");
                    ("price", Str "500"); ("id", Str "4")]).
  specialize (H (Sample.always 0 NetworkError true) Sample.cart_page
                (repeat dish (S limit))).
  assert (repeat dish (S limit) <> []) as Hne by (cbn; discriminate).
  rewrite (displaySearchResults_rows
             (Sample.always 0 NetworkError true) Sample.cart_page
             (Panel [PageMarkup "results"] ["dropdown"]) (repeat dish (S limit)) _
             eq_refl Hne (repeat_rows (S limit) "rice.jpg" "Rice" "500" "4")) in H.
  unfold rows_shown in H. cbn [dom with_dom Sample.cart_page search_results
    set_search_results panel_html] in H.
  rewrite filter_all in H by (apply Forall_forall; intros x Hx;
    apply repeat_spec in Hx; subst x; reflexivity).
  rewrite repeat_length in H. lia.
Qed.

Example twelve_items_twelve_rows :
  rows_shown
    (exec (displaySearchResults
             (Arr (repeat (Obj [("id", Num 4); ("name", Str "Rice");
                                ("price", Num 500)]) 12)))
          (Sample.always 0 NetworkError true) Sample.cart_page) = 12%nat.
Proof. reflexivity. Qed.

Lemma traverse_undefined (items : list value) :
  forallb defined items = false -> traverse search_row items = None.
Proof.
  induction items as [|x items IH]; cbn [forallb traverse]; [discriminate|].
  intros H. apply andb_false_iff in H. destruct H as [Hx | Hl].
  - destruct x; try discriminate Hx; reflexivity.
  - rewrite (IH Hl). destruct (search_row x); reflexivity.
Qed.

(** C8, amended: [displaySearchResults] applies no limit to a non-empty
    array of items.  On a page that has the results panel, an array with no
    [null] entry is rendered as one row per item, in the order of the
    response: the panel holds exactly the rows of the items and is shown,
    and the number of rows is the number of items.  If an entry is [null]
    the call throws and the page is left as it was; on a page without the
    panel the call returns and renders nothing. *)
Theorem one_row_per_item (h : host) (p : page) (items : list value) :
  items <> [] ->
  let run := displaySearchResults (Arr items) h p in
  match search_results (dom p) with
  | None => run = (Some tt, p)
  | Some pn =>
      if forallb defined items
      then exists rows,
             traverse search_row items = Some rows /\
             run = (Some tt,
                    with_dom (set_search_results
                                (Some (Panel rows (class_remove "d-none"
                                                     (panel_classes pn))))) p) /\
             rows_shown (snd run) = List.length items
      else run = (None, p)
  end.
Proof.
  intros Hne run. subst run.
  destruct (search_results (dom p)) as [pn|] eqn:Hpn.
  - destruct (forallb defined items) eqn:Hdef.
    + destruct (traverse_defined search_row defined items search_row_defined Hdef)
        as [rows Hrows].
      exists rows. split; [exact Hrows|].
      assert (displaySearchResults (Arr items) h p =
              (Some tt,
               with_dom (set_search_results
                           (Some (Panel rows (class_remove "d-none"
                                                (panel_classes pn))))) p)) as Hfull.
      { unfold displaySearchResults. unfold_eff. cbn. rewrite Hpn. cbn.
        destruct items as [|x items]; [congruence|].
        cbn [List.length is_zero Z.of_nat]. cbn [render_rows]. rewrite Hrows.
        reflexivity. }
      split; [exact Hfull|]. rewrite Hfull.
      unfold rows_shown. cbn. rewrite filter_all.
      * now apply traverse_length in Hrows.
      * apply (traverse_Forall search_row _ items rows); [|exact Hrows].
        intros x y. apply search_row_is_row.
    + unfold displaySearchResults. unfold_eff. cbn. rewrite Hpn. cbn.
      destruct items as [|x items]; [congruence|].
      cbn [List.length is_zero Z.of_nat]. cbn [render_rows].
      rewrite (traverse_undefined (x :: items) Hdef). reflexivity.
  - unfold displaySearchResults. unfold_eff. cbn. rewrite Hpn. reflexivity.
Qed.

Lemma one_row_per_item_witness :
  rows_shown
    (exec (displaySearchResults
             (Arr [Obj [("id", Num 4); ("name", Str "Rice"); ("price", Num 500)];
                   Obj [("id", Num 5); ("name", Str "Beans"); ("price", Num 300)];
                   Obj [("id", Num 4); ("name", Str "Rice"); ("price", Num 500)]]))
          (Sample.always 0 NetworkError true) Sample.cart_page) = 3%nat.
Proof.
  destruct (one_row_per_item (Sample.always 0 NetworkError true) Sample.cart_page
              [Obj [("id", Num 4); ("name", Str "Rice"); ("price", Num 500)];
               Obj [("id", Num 5); ("name", Str "Beans"); ("price", Num 300)];
               Obj [("id", Num 4); ("name", Str "Rice"); ("price", Num 500)]]
              ltac:(discriminate)) as [rows [_ [_ Hn]]].
  exact Hn.
Defined.

(** A [null] among the items: no row is rendered, the panel keeps what it
    showed. *)
Example null_item_renders_nothing :
  displaySearchResults
    (Arr [Obj [("id", Num 4); ("name", Str "Rice"); ("price", Num 500)]; Null])
    (Sample.always 0 NetworkError true) Sample.cart_page
  = (None, Sample.cart_page).
Proof. reflexivity. Qed.

(** *** Polling *)

Ltac page_found := solve [do 2 eexists; reflexivity].

Lemma loadNotifications_returns (h : host) (p : page) :
  exists d e,
    loadNotifications h p =
      (Some tt, Page d (requests p ++ [(now h, notifications_request)]) e (reloads p)).
Proof.
  unfold loadNotifications, displayNotifications. unfold_eff. cbn.
  destruct (respond h notifications_request) as [| |data]; cbn; try page_found.
  destruct (field data "notifications") as [ns|]; cbn; try page_found.
  destruct (field ns "length") as [len|] eqn:El; cbn; try page_found.
  destruct (notification_badge (dom p)); cbn;
    destruct (notification_menu (dom p)); cbn; try page_found;
    destruct (menu_markup ns); cbn; page_found.
Qed.

Lemma updateOrderStats_returns (h : host) (p : page) :
  exists d e,
    updateOrderStats h p =
      (Some tt, Page d (requests p ++ [(now h, stats_request)]) e (reloads p)).
Proof.
  unfold updateOrderStats. unfold_eff. cbn.
  destruct (respond h stats_request) as [| |data]; cbn; try page_found.
  destruct (keys data); cbn; page_found.
Qed.






Lemma loadNotifications_replaces (h : host) (q : page)
      (data ns len : value) (markup : list fragment) :
  respond h notifications_request = Json data ->
  field data "notifications" = Some ns ->
  field ns "length" = Some len ->
  menu_markup ns = Some markup ->
  dom (exec loadNotifications h q) = replace_notifications len markup (dom q).
Proof.
  intros Hr Hns Hlen Hm.
  unfold loadNotifications, displayNotifications, replace_notifications.
  unfold_eff. cbn. rewrite Hr. cbn. rewrite Hns. cbn. rewrite Hlen. cbn.
  destruct (notification_badge (dom q)) eqn:Eb; cbn; rewrite ?Eb; cbn;
    destruct (notification_menu (dom q)) eqn:Em; cbn; rewrite ?Em; cbn;
    rewrite ?Hm; cbn; rewrite ?Eb; reflexivity.
Qed.






Example polling_times :
  match construct (Sample.steady Sample.inbox) 100 Sample.cart_page with
  | Some r =>
      request_times notifications_path
                    (current (ticks (Sample.steady Sample.inbox) 3 r))
  | None => []
  end = [100; 30100; 60100; 90100].
Proof. reflexivity. Qed.

(** *** The search debounce *)

(** The requests [searchMenu] issues. *)
Lemma searchMenu_requests (query : string) (h : host) (p : page) :
  requests (exec (searchMenu query) h p) =
    (requests p ++
       (if Z.of_nat (String.length query) <? 2 then []
        else [(now h, search_request query)]))%list.
Proof.
  unfold searchMenu.
  destruct (Z.of_nat (String.length query) <? 2).
  - cbn. now rewrite app_nil_r.
  - unfold displaySearchResults. unfold_eff. cbn.
    destruct (respond h (search_request query)) as [| |data]; cbn; try reflexivity.
    destruct (field data "items") as [items|]; cbn; try reflexivity.
    destruct (search_results (dom p)); cbn; try reflexivity.
    destruct (field items "length") as [len|]; cbn; try reflexivity.
    destruct (is_zero len); cbn; try reflexivity.
    destruct (render_rows search_row items); reflexivity.
Qed.

Lemma last_cons_default {A} (x : A) (l : list A) (d d' : A) :
  last (x :: l) d = last (x :: l) d'.
Proof.
  revert x. induction l as [|y l IH]; intros x; [reflexivity|].
  change (last (y :: l) d = last (y :: l) d'). apply IH.
Qed.

(** While the keystrokes keep coming, nothing fires: the field holds the
    last text and the timeout is due 300 ms after the last keystroke. *)
Lemma burst_pending (w : world) (events : list (Z * string)) (t : Z)
      (text : string) (p : page) :
  spaced ((t, text) :: events) ->
  fold_left (on_input w) events
            (SearchBox (with_dom (set_menu_search (Some text)) p) (Some (t + 300)))
  = SearchBox (with_dom (set_menu_search (Some (snd (last events (t, text))))) p)
              (Some (fst (last events (t, text)) + 300)).
Proof.
  revert t text. induction events as [|[t2 text2] events IH]; intros t text Hs.
  - reflexivity.
  - destruct Hs as [Hgap Hrest].
    cbn [fold_left]. unfold on_input at 2. unfold run_due. cbn [searchTimeout].
    assert ((t + 300 <=? t2) = false) as -> by (apply Z.leb_gt; lia).
    cbn [box_page].
    change (with_dom (set_menu_search (Some text2))
                     (with_dom (set_menu_search (Some text)) p))
      with (with_dom (set_menu_search (Some text2)) p).
    rewrite (IH t2 text2 Hrest).
    destruct events as [|e events]; [reflexivity|].
    change (last ((t2, text2) :: e :: events) (t, text))
      with (last (e :: events) (t, text)).
    now rewrite (last_cons_default e events (t2, text2) (t, text)).
Qed.

(** A burst of keystrokes from a page where no timeout is pending. *)
Lemma burst_settles (w : world) (events : list (Z * string)) (t : Z)
      (text : string) (p : page) :
  spaced (events ++ [(t, text)]) ->
  type_in w (events ++ [(t, text)]) (SearchBox p None)
  = SearchBox (exec (searchMenu text) (at_time w (t + 300))
                    (with_dom (set_menu_search (Some text)) p)) None.
Proof.
  intros Hs. unfold type_in.
  destruct events as [|[t1 text1] events].
  - reflexivity.
  - cbn [app fold_left]. unfold on_input at 2. cbn [run_due searchTimeout box_page].
    rewrite (burst_pending w (events ++ [(t, text)]) t1 text1 p Hs).
    rewrite last_last. reflexivity.
Qed.

(** C4, as worded, fails: a single keystroke that leaves the one-character
    text [a] in the field of the sample page produces no request. *)
Lemma short_burst_sends_nothing : ~ one_request_per_burst.
Proof.
  intros H.
  specialize (H (Sample.steady Sample.added) Sample.cart_page
                (SearchBox Sample.cart_page None) [(0, "a")]
                eq_refl ltac:(discriminate) I).
  vm_compute in H. discriminate H.
Qed.

(** C4, amended: a burst of keystrokes less than 300 ms apart (any that
    precede, then the last one at time [t] leaving [text] in the field)
    calls [searchMenu] exactly once, 300 ms after the last keystroke and with
    the text of the last keystroke; that call issues exactly one search
    request when the text has at least 2 characters, and none otherwise. *)
Theorem debounced_search (w : world) (p : page) (s : search_box)
        (events : list (Z * string)) (t : Z) (text : string) :
  setupSearchListeners p = Some s ->
  spaced (events ++ [(t, text)]) ->
  let final := type_in w (events ++ [(t, text)]) s in
  searchTimeout final = None /\
  box_page final = exec (searchMenu text) (at_time w (t + 300))
                        (with_dom (set_menu_search (Some text)) p) /\
  requests (box_page final) =
    (requests p ++
       (if Z.of_nat (String.length text) <? 2 then []
        else [(t + 300, search_request text)]))%list /\
  search_requests (box_page final) =
    (search_requests p
     + (if (Z.of_nat (String.length text) <? 2)%Z then 0 else 1))%nat.
Proof.
  intros Hsetup Hs final. subst final.
  unfold setupSearchListeners in Hsetup.
  destruct (menu_search (dom p)); [|discriminate Hsetup].
  injection Hsetup as <-.
  rewrite (burst_settles w events t text p Hs). cbn [searchTimeout box_page].
  split; [reflexivity|]. split; [reflexivity|].
  assert (requests (exec (searchMenu text) (at_time w (t + 300))
                         (with_dom (set_menu_search (Some text)) p)) =
          (requests p ++
             (if Z.of_nat (String.length text) <? 2 then []
              else [(t + 300, search_request text)]))%list) as Hreq
      by exact (searchMenu_requests text (at_time w (t + 300))
                  (with_dom (set_menu_search (Some text)) p)).
  split; [exact Hreq|].
  unfold search_requests. rewrite Hreq, filter_app, length_app.
  destruct (Z.of_nat (String.length text) <? 2); reflexivity.
Qed.

Lemma debounced_search_witness :
  let final := type_in (Sample.steady Sample.added)
                       [(0, "r"); (120, "ri"); (250, "ric"); (400, "rice")]
                       (SearchBox Sample.cart_page None) in
  requests (box_page final) = [(700, search_request "rice")].
Proof.
  destruct (debounced_search (Sample.steady Sample.added) Sample.cart_page
              (SearchBox Sample.cart_page None)
              [(0, "r"); (120, "ri"); (250, "ric")] 400 "rice" eq_refl)
    as [_ [_ [Hreq _]]].
  - cbn. lia.
  - exact Hreq.
Defined.

(* ===================================================================== *)
(** ** Further properties of the script *)
(* ===================================================================== *)

(** *** Accepted state-changing operations *)

Lemma judge_accepted (r : response) (data : value) :
  judge r = Accepted data ->
  r = Json data /\ exists s, field data "success" = Some s /\ truthy s = true.
Proof.
  unfold judge. destruct r as [| |d]; try discriminate.
  destruct (field d "success") as [s|] eqn:Es; try discriminate.
  destruct (truthy s) eqn:Et; try discriminate.
  intros H. injection H as <-. eauto.
Qed.

Lemma member_field (data s : value) (name other : string) :
  field data name = Some s -> field data other = Some (member data other).
Proof.
  intros H. unfold member.
  destruct (field_defined data s name other H) as [y ->]. reflexivity.
Qed.

Lemma updateCartBadge_updated (count : value) (h : host) (p : page) :
  updateCartBadge count h p = (Some tt, badge_updated count h p).
Proof. apply updateCartBadge_run. Qed.

(** A state-changing operation the server accepts, in full. *)
Lemma accepted_mutation (h : host) (p : page) (op : operation) (data : value) :
  changes_state op = true ->
  reaches_server h op = true ->
  judge (respond h (request_of op p)) = Accepted data ->
  perform op h p = (Some tt, accepted_page op data h p).
Proof.
  intros Hop Hgo Hj.
  destruct (judge_accepted _ _ Hj) as [Hr [s [Hs Ht]]].
  pose proof (member_field data s "success" "cart_count" Hs) as Hc.
  pose proof (member_field data s "success" "cart_total" Hs) as Htot.
  pose proof (member_field data s "success" "new_quantity" Hs) as Hq.
  destruct op; try discriminate Hop; cbn in Hgo;
    unfold accepted_page, caught_page, breaks_selector;
    cbn [perform request_of on_selected] in *;
    unfold addToCart, updateCartQuantity, removeFromCart, updateOrderStatus,
      cancelOrder, querySelector; unfold_eff; rewrite ?Hgo; cbn;
    rewrite ?csrf_token_loading, Hr; cbn; rewrite Hs; cbn; rewrite Ht; cbn;
    try (destruct (attribute_selector (to_string menuItemId)) as [|key| |]; cbn;
         [reflexivity| | |reflexivity]);
    rewrite ?Hq; cbn; rewrite ?Hc; cbn;
    rewrite ?updateCartBadge_updated; cbn; rewrite ?Htot; cbn;
    unfold badge_updated; cbn;
    try (destruct (cart_badge (dom p)); cbn;
         try destruct (is_null (count_or_default (member data "cart_count")));
         cbn); reflexivity.
Qed.

(** *** What every operation does *)

Lemma failed_has_message (op : operation) (r : response) :
  failed r = true -> exists msg, failure_message op r = Some msg.
Proof.
  unfold failed, failure_message. destruct (judge r); try discriminate; eauto.
Qed.

Lemma not_failed_accepted (r : response) :
  failed r = false -> exists data, judge r = Accepted data.
Proof. unfold failed. destruct (judge r); try discriminate; eauto. Qed.

Lemma accepted_no_message (op : operation) (r : response) (data : value) :
  judge r = Accepted data -> failure_message op r = None /\ failed r = false.
Proof. unfold failure_message, failed. intros ->. auto. Qed.

Lemma badge_updated_view {T} (f : Dom.t -> T) (count : value) (h : host) (p : page) :
  (forall x d, f (set_cart_badge x d) = f d) ->
  f (dom (badge_updated count h p)) = f (dom p).
Proof.
  intros Hf. unfold badge_updated.
  destruct (cart_badge (dom p)); [|reflexivity].
  destruct (is_null (count_or_default count)); cbn; apply Hf.
Qed.

Lemma badge_updated_reloads (count : value) (h : host) (p : page) :
  reloads (badge_updated count h p) = reloads p.
Proof.
  unfold badge_updated. destruct (cart_badge (dom p)); [|reflexivity].
  destruct (is_null (count_or_default count)); reflexivity.
Qed.

Lemma badge_updated_requests (count : value) (h : host) (p : page) :
  exists extra,
    requests (badge_updated count h p) = (requests p ++ extra)%list /\
    (extra = [] \/ extra = [(now h, count_request)]).
Proof.
  unfold badge_updated. destruct (cart_badge (dom p)).
  - destruct (is_null (count_or_default count)); cbn.
    + eauto.
    + exists []. rewrite app_nil_r. auto.
  - exists []. rewrite app_nil_r. auto.
Qed.

Lemma searchMenu_returns (query : string) (h : host) (p : page) :
  exists d e,
    searchMenu query h p =
      (Some tt,
       Page d (requests p ++
                 (if Z.of_nat (String.length query) <? 2 then []
                  else [(now h, search_request query)]))
            e (reloads p)).
Proof.
  unfold searchMenu.
  destruct (Z.of_nat (String.length query) <? 2).
  - cbn. rewrite app_nil_r. page_found.
  - unfold displaySearchResults. unfold_eff. cbn.
    destruct (respond h (search_request query)) as [| |data]; cbn; try page_found.
    destruct (field data "items") as [items|]; cbn; try page_found.
    destruct (search_results (dom p)); cbn; try page_found.
    destruct (field items "length") as [len|]; cbn; try page_found.
    destruct (is_zero len); cbn; try page_found.
    destruct (render_rows search_row items); page_found.
Qed.

(** The common shape of every run: it returns, the requests it issued are
    its own request (when it reaches the server) and at most one count
    request after an accepted cart mutation, and only an accepted order
    operation schedules a reload. *)
Lemma perform_shape (op : operation) (h : host) (p : page) :
  exists d e extra,
    perform op h p =
      (Some tt,
       Page d
            (requests p
               ++ (if reaches_server h op then [(now h, request_of op p)] else [])
               ++ extra)
            e
            (reloads p
               ++ (if is_order_operation op && reaches_server h op
                      && negb (failed (respond h (request_of op p)))
                   then [now h + 1000] else []))) /\
    (extra = [] \/
     extra = [(now h, count_request)] /\ is_cart_mutation op = true /\
     reaches_server h op = true /\ failed (respond h (request_of op p)) = false).
Proof.
  destruct (changes_state op) eqn:Hop.
  - destruct (reaches_server h op) eqn:Hgo.
    + destruct (failed (respond h (request_of op p))) eqn:Hf.
      * destruct (failed_has_message op _ Hf) as [msg Hmsg].
        rewrite (failed_mutation h p op msg Hop Hgo Hmsg).
        do 2 eexists. exists []. split; [|auto].
        rewrite andb_false_r, !app_nil_r. reflexivity.
      * destruct (not_failed_accepted _ Hf) as [data Hj].
        rewrite (accepted_mutation h p op data Hop Hgo Hj).
        unfold accepted_page.
        destruct (breaks_selector op) eqn:Hsel.
        { destruct op; try discriminate Hsel; unfold caught_page;
            do 2 eexists; exists []; (split; [|auto]);
            rewrite ?app_nil_r; reflexivity. }
        destruct op; try discriminate Hop; cbn [is_order_operation
          andb negb is_cart_mutation with_dom].
        1,2,3: cbv zeta;
               match goal with
               | |- context [badge_updated ?c ?h' ?q] =>
                   destruct (badge_updated_requests c h' q) as [extra [Hreq Hextra]];
                   pose proof (badge_updated_reloads c h' q) as Hrel;
                   destruct (badge_updated c h' q) as [d0 r0 e0 l0]
               end;
               cbn [requests reloads dom] in Hreq, Hrel; subst r0 l0;
               do 2 eexists; exists extra;
               (split; [|destruct Hextra as [-> | ->]; auto]);
               cbn [requests reloads dom errors];
               rewrite ?app_nil_r, <- ?app_assoc; reflexivity.
        all: do 2 eexists; exists []; (split; [|auto]);
             rewrite ?app_nil_r; reflexivity.
    + destruct op; try discriminate Hop; cbn in Hgo;
        try discriminate Hgo; cbn [perform];
        unfold removeFromCart, cancelOrder; unfold_eff; rewrite Hgo; cbn;
        exists (dom p), (errors p), []; (split; [|auto]);
        rewrite ?andb_false_r, !app_nil_r; destruct p; reflexivity.
  - destruct op; try discriminate Hop; cbn [perform request_of reaches_server
      is_order_operation andb].
    + destruct (searchMenu_returns query h p) as [d [e ->]].
      exists d, e, []. split; [|auto]. rewrite !app_nil_r.
      destruct (Z.of_nat (String.length query) <? 2); reflexivity.
    + destruct (loadNotifications_returns h p) as [d [e ->]].
      exists d, e, []. split; [|auto]. rewrite !app_nil_r. reflexivity.
    + destruct (updateOrderStats_returns h p) as [d [e ->]].
      exists d, e, []. split; [|auto]. rewrite !app_nil_r. reflexivity.
    + unfold bind. rewrite fetchCartCount_run. cbn.
      do 2 eexists. exists []. split; [|auto]. rewrite !app_nil_r. reflexivity.
Qed.


(** X2: the requests of an operation.  An operation that does not reach
    the server (a declined confirmation, a search query of fewer than 2
    characters) issues none.  Otherwise it issues its own request, once and
    first, at the time it runs; the only request that can follow is one
    count request, and only after a cart mutation the server accepted. *)
Theorem requests_of_an_operation (op : operation) (h : host) (p : page) :
  exists extra,
    requests (exec (perform op) h p) =
      (requests p
         ++ (if reaches_server h op then [(now h, request_of op p)] else [])
         ++ extra)%list /\
    (extra = [] \/
     extra = [(now h, count_request)] /\ is_cart_mutation op = true /\
     reaches_server h op = true /\ failed (respond h (request_of op p)) = false).
Proof.
  destruct (perform_shape op h p) as [d [e [extra [Hrun Hextra]]]].
  exists extra. unfold exec. rewrite Hrun. split; [reflexivity | exact Hextra].
Qed.

(** X3: a page reload is scheduled, 1000 ms ahead, exactly when an order
    operation (update status, cancel) reached the server and was accepted;
    no failed call, no cart operation and no reading operation ever
    schedules one. *)
Theorem reload_only_after_accepted_order_operation
        (op : operation) (h : host) (p : page) :
  reloads (exec (perform op) h p) =
    (reloads p
       ++ (if is_order_operation op && reaches_server h op
              && negb (failed (respond h (request_of op p)))
           then [now h + 1000] else []))%list.
Proof.
  destruct (perform_shape op h p) as [d [e [extra [Hrun _]]]].
  unfold exec. rewrite Hrun. reflexivity.
Qed.

Example cancel_accepted_reloads :
  reloads (exec (perform (CancelOrder (Str "12")))
                (Sample.always 40 Sample.added true) Sample.cart_page) = [1040].
Proof. reflexivity. Qed.

(** *** What an operation leaves alone *)

(** As [keeps_step], for a view known only through what leaves it alone. *)
Ltac frame_step :=
  match goal with
  | |- keeps _ (bind _ _) => apply keeps_bind; [|intros ?]
  | |- keeps _ (try_catch _ _) => apply keeps_try_catch
  | |- keeps _ (try_finally _ _) => apply keeps_try_finally
  | |- keeps _ (modify_dom _) =>
      apply keeps_modify_dom; intros ?;
      repeat match goal with
             | |- context [match ?x with _ => _ end] => destruct x
             end; solve [reflexivity | auto]
  | |- keeps _ (match ?x with _ => _ end) => destruct x
  | |- keeps _ _ => solve [auto with keeps]
  end.

Ltac frame_walk :=
  unfold addToCart, updateCartQuantity, removeFromCart, updateOrderStatus,
    cancelOrder, searchMenu, loadNotifications, updateOrderStats,
    displaySearchResults, displayNotifications, updateNotificationBadge,
    updateCartBadge, fetchCartCount, updateCartTotal, showToast,
    showLoading, hideLoading, getCSRFToken, querySelector;
  cbv zeta; repeat frame_step.

(** Each operation writes only its own slots of the document. *)
Lemma perform_keeps_blank (op : operation) : keeps (blank op) (perform op).
Proof. destruct op; cbn [perform]; frame_walk. Qed.



(** *** Toasts and the loading indicator *)

Lemma fold_toast_added (d : Dom.t) (l : list toast) :
  toasts (fold_left (fun d t => toast_added t d) l d) = (toasts d ++ l)%list.
Proof.
  revert d. induction l as [|t l IH]; intros d; cbn [fold_left].
  - now rewrite app_nil_r.
  - rewrite IH. unfold toast_added. cbn. now rewrite <- app_assoc.
Qed.


Lemma total_updated_view {T} (f : Dom.t -> T) (total : value) (d : Dom.t) :
  (forall x d, f (set_cart_total x d) = f d) -> f (total_updated total d) = f d.
Proof. intros Hf. unfold total_updated. destruct (cart_total d); auto. Qed.

Lemma on_selected_view {T} (f : Dom.t -> T) (found : selection)
      (write : string -> Dom.t -> Dom.t) (d : Dom.t) :
  (forall k d, f (write k d) = f d) -> f (on_selected found write d) = f d.
Proof. intros Hf. destruct found; cbn; auto. Qed.

Lemma toasts_accepted_page (op : operation) (data : value) (h : host) (p : page) :
  changes_state op = true ->
  toasts (dom (accepted_page op data h p))
  = (toasts (dom p)
       ++ (if breaks_selector op
           then [new_toast (now h) (Str (catch_text op)) "error"]
           else success_toast op h))%list.
Proof.
  intros Hop. unfold accepted_page.
  destruct (breaks_selector op);
    [destruct op; try discriminate Hop; reflexivity|].
  destruct op; try discriminate Hop; cbv zeta;
    unfold with_dom; cbn [dom]; rewrite ?fold_toast_added;
    rewrite ?(total_updated_view toasts) by reflexivity;
    rewrite ?(badge_updated_view toasts) by reflexivity;
    cbn [dom]; rewrite ?(on_selected_view toasts) by reflexivity;
    rewrite ?fold_toast_added; cbn [success_toast];
    rewrite ?app_nil_r; reflexivity.
Qed.


(** The document of an operation that does not change the server's state,
    or never reaches the server, seen through a view its own slot does not
    show. *)
Lemma quiet_operation_view {T} (f : Dom.t -> T) (op : operation) (h : host)
      (p : page) :
  changes_state op && reaches_server h op = false ->
  (forall x y z w d,
      f (set_search_results x (set_notification_badge y
           (set_notification_menu z (set_stats w d)))) = f d) ->
  f (dom (snd (perform op h p))) = f (dom p).
Proof.
  intros Hq Hf.
  destruct (changes_state op) eqn:Hop.
  - cbn in Hq.
    destruct op; try discriminate Hop; cbn in Hq; try discriminate Hq;
      cbn [perform]; unfold removeFromCart, cancelOrder; unfold_eff;
      rewrite Hq; reflexivity.
  - pose proof (perform_keeps_blank op h p) as H.
    assert (forall d, f d = f (blank op d)) as E.
    { intros d. destruct op; try discriminate Hop; cbn [blank].
      - rewrite <- (Hf None (notification_badge d) (notification_menu d)
                       (stats d) d) at 1.
        f_equal; try (destruct d; reflexivity).
      - rewrite <- (Hf (search_results d) None None (stats d) d) at 1.
        f_equal; try (destruct d; reflexivity).
      - rewrite <- (Hf (search_results d) (notification_badge d)
                       (notification_menu d) [] d) at 1.
        f_equal; try (destruct d; reflexivity).
      - reflexivity. }
    rewrite E, H, <- E. reflexivity.
Qed.

(** X5: the toast of an operation, in every outcome.  A state-changing
    operation that reaches the server appends exactly one toast, except an
    accepted [updateCartQuantity] whose selector is well formed, which is
    silent: the error toast on a failure; on an accepted call the
    operation's success toast, or the error toast of the [catch] block when
    the id makes the attribute selector malformed and [querySelector]
    throws.  A reading operation, a declined confirmation and a short
    search append none.  The toasts already on the page are kept, in order.
    (For ids that do not rewrite the selector.) *)
Theorem toast_of_an_operation (op : operation) (h : host) (p : page) :
  rewrites_selector op = false ->
  toasts_of (exec (perform op) h p)
  = (toasts_of p ++ toast_of_outcome op h p)%list /\
  (List.length (toast_of_outcome op h p) <= 1)%nat.
Proof.
  intros _. unfold toasts_of, exec, toast_of_outcome. split.
  - destruct (changes_state op && reaches_server h op) eqn:Hq.
    + apply andb_true_iff in Hq. destruct Hq as [Hop Hgo].
      destruct (failed (respond h (request_of op p))) eqn:Hf.
      * destruct (failed_has_message op _ Hf) as [msg Hmsg]. rewrite Hmsg.
        rewrite (failed_mutation h p op msg Hop Hgo Hmsg). cbn.
        destruct op; reflexivity.
      * destruct (not_failed_accepted _ Hf) as [data Hj].
        rewrite (proj1 (accepted_no_message op _ data Hj)).
        rewrite (accepted_mutation h p op data Hop Hgo Hj). cbn [snd].
        now apply toasts_accepted_page.
    + rewrite app_nil_r. now apply quiet_operation_view.
  - destruct (changes_state op && reaches_server h op); [|cbn; lia].
    destruct (failure_message op (respond h (request_of op p))); [cbn; lia|].
    destruct (breaks_selector op); [cbn; lia|].
    destruct op; cbn; lia.
Qed.

(** An accepted quantity update for an id that ends in a double quote: the
    selector is malformed, the cart is left as it was and the [catch] block
    reports. *)
Lemma toast_of_an_operation_witness :
  let op := UpdateCartQuantity Sample.quoted_id "increase" in
  let p' := exec (perform op) (Sample.always 40 Sample.added true) Sample.cart_page in
  toasts_of p' = [Toast "toast-40" "bg-danger" "Error updating cart"] /\
  cart_view (dom p') = cart_view (dom Sample.cart_page) /\
  errors p' = ["Update cart error:"].
Proof.
  intros op p'.
  destruct (toast_of_an_operation op (Sample.always 40 Sample.added true)
              Sample.cart_page eq_refl) as [Htoast _].
  split; [exact Htoast|]. split; reflexivity.
Defined.

Example remove_accepted_toast :
  toasts_of (exec (perform (RemoveFromCart (Str "9")))
                  (Sample.always 40 Sample.added true) Sample.cart_page)
  = [Toast "toast-40" "bg-success" "Item removed from cart"].
Proof. reflexivity. Qed.


(** *** Requests and the CSRF token *)

Lemma request_of_kind (op : operation) (p : page) :
  if changes_state op
  then post_with_token (csrf_token (dom p)) (request_of op p)
  else plain_get (request_of op p).
Proof.
  destruct op; cbn [changes_state request_of];
    unfold post_with_token, plain_get, add_request, update_request,
      remove_request, status_request, cancel_request, search_request,
      notifications_request, stats_request, count_request, json_headers;
    cbn; auto 6.
Qed.

(** X7: every request an operation issues is either a bare GET (no header,
    no body) or a POST that carries the page's CSRF token in the
    [X-CSRFToken] header, and the state-changing operations only issue
    POSTs of that kind as their own request.  The token is the value of
    the hidden form field when that is not empty, else the content of the
    meta tag, else the empty string. *)
Theorem requests_carry_the_token (op : operation) (h : host) (p : page) :
  (forall tr, In tr (requests (exec (perform op) h p)) ->
     In tr (requests p) \/ plain_get (snd tr) \/
     post_with_token (csrf_token (dom p)) (snd tr)) /\
  (changes_state op = true ->
   post_with_token (csrf_token (dom p)) (request_of op p)) /\
  csrf_token (dom p) =
    match csrf_field (dom p), csrf_meta (dom p) with
    | Some (String c s), _ => String c s
    | _, Some m => m
    | _, None => EmptyString
    end.
Proof.
  split; [|split].
  - intros tr Hin.
    destruct (perform_shape op h p) as [d [e [extra [Hrun Hextra]]]].
    unfold exec in Hin. rewrite Hrun in Hin. cbn [snd requests] in Hin.
    rewrite !in_app_iff in Hin. destruct Hin as [Hin | [Hin | Hin]]; auto.
    + destruct (reaches_server h op); [|destruct Hin].
      destruct Hin as [<- | []]. cbn [snd]. right.
      pose proof (request_of_kind op p) as K.
      destruct (changes_state op); auto.
    + destruct Hextra as [-> | [-> _]]; [destruct Hin|].
      destruct Hin as [<- | []]. right. left. repeat split.
  - intros Hop. pose proof (request_of_kind op p) as K. now rewrite Hop in K.
  - unfold csrf_token.
    destruct (csrf_field (dom p)) as [[|c s]|], (csrf_meta (dom p)) as [[|c' s']|];
      reflexivity.
Qed.

Lemma requests_carry_the_token_witness :
  post_with_token "tok" (request_of (CancelOrder (Str "12")) Sample.cart_page).
Proof.
  exact (proj1 (proj2 (requests_carry_the_token
                         (CancelOrder (Str "12"))
                         (Sample.always 0 NetworkError true) Sample.cart_page))
               eq_refl).
Defined.

(** *** Order statistics *)











(** *** Displaying search results *)

Lemma class_remove_not_In (c : string) (l : list string) :
  ~ In c (class_remove c l).
Proof.
  unfold class_remove. intros H. apply filter_In in H. destruct H as [_ H].
  now rewrite String.eqb_refl in H.
Qed.

(** X9: a search that gets an answer, on a page with a results panel.
    When the markup can be built (an empty list gives the line
    [No items found]), the panel gets that markup and is revealed: [d-none]
    is no longer among its classes.  When it cannot ([items] is missing, is
    not an array, or holds a [null]), the exception is caught: the document
    is left as it was, results and visibility included, and one line goes to
    the console. *)
Theorem search_results_shown_or_kept
        (query : string) (h : host) (p : page) (pn : panel) (data items : value) :
  reaches_server h (SearchMenu query) = true ->
  search_results (dom p) = Some pn ->
  respond h (search_request query) = Json data ->
  field data "items" = Some items ->
  let p' := exec (searchMenu query) h p in
  match result_markup items with
  | Some html =>
      exists classes,
        dom p' = set_search_results (Some (Panel html classes)) (dom p) /\
        ~ In "d-none" classes /\
        (forall c, c <> "d-none" -> In c classes <-> In c (panel_classes pn)) /\
        errors p' = errors p
  | None =>
      dom p' = dom p /\ errors p' = (errors p ++ ["Search error:"])%list
  end.
Proof.
  intros Hgo Hpn Hr Hitems p'. subst p'. cbn in Hgo.
  apply negb_true_iff in Hgo.
  unfold searchMenu, displaySearchResults, result_markup. rewrite Hgo.
  unfold_eff. cbn. rewrite Hr. cbn. rewrite Hitems. cbn. rewrite Hpn. cbn.
  destruct (field items "length") as [len|]; cbn; [|auto].
  assert (forall html,
    exists classes,
      set_search_results
        (Some (Panel html (class_remove "d-none" (panel_classes pn)))) (dom p)
      = set_search_results (Some (Panel html classes)) (dom p) /\
      ~ In "d-none" classes /\
      (forall c, c <> "d-none" -> In c classes <-> In c (panel_classes pn)) /\
      errors p = errors p) as Shown.
  { intros html. exists (class_remove "d-none" (panel_classes pn)).
    split; [reflexivity|]. split; [apply class_remove_not_In|].
    split; [|reflexivity]. intros c Hc. unfold class_remove.
    rewrite filter_In. split; [tauto|]. intros Hin. split; [exact Hin|].
    apply negb_true_iff, String.eqb_neq. exact Hc. }
  destruct (is_zero len); cbn; [apply Shown|].
  destruct (render_rows search_row items); cbn; [apply Shown | auto].
Qed.

Lemma search_results_shown_or_kept_witness :
  let gone := Json (Obj [("items", Arr [])]) in
  let broken := Json (Obj [("items", Arr [Null])]) in
  let hidden := with_dom hide_results Sample.cart_page in
  search_results (dom (exec (searchMenu "rice") (Sample.always 0 gone true) hidden))
  = Some (Panel [NoItemsFound] ["dropdown"]) /\
  dom (exec (searchMenu "rice") (Sample.always 0 broken true) hidden) = dom hidden.
Proof.
  intros gone broken hidden. split.
  - destruct (search_results_shown_or_kept "rice" (Sample.always 0 gone true)
                hidden (Panel [PageMarkup "results"] ["dropdown"; "d-none"])
                (Obj [("items", Arr [])]) (Arr [])
                eq_refl eq_refl eq_refl eq_refl) as [classes [Hdom _]].
    reflexivity.
  - exact (proj1 (search_results_shown_or_kept "rice"
                    (Sample.always 0 broken true) hidden
                    (Panel [PageMarkup "results"] ["dropdown"; "d-none"])
                    (Obj [("items", Arr [Null])]) (Arr [Null])
                    eq_refl eq_refl eq_refl eq_refl)).
Defined.

(** *** Notifications *)

Lemma notification_row_defined (n : value) :
  defined n = true -> exists row, notification_row n = Some row.
Proof.
  intros H. unfold notification_row.
  destruct (field_of_defined n "url" H) as [? ->].
  destruct (field_of_defined n "title" H) as [? ->].
  destruct (field_of_defined n "message" H) as [? ->].
  destruct (field_of_defined n "time" H) as [? ->]. eauto.
Qed.

(** X10: a snapshot that cannot be rendered (for instance an array with a
    [null] entry) is applied by halves: the notification badge is already
    overwritten with the snapshot's length when the rendering throws, the
    menu keeps its previous content, and the failure is logged. *)
Theorem unrenderable_snapshot_updates_badge_only
        (h : host) (p : page) (data ns len : value) (menu : list fragment) :
  respond h notifications_request = Json data ->
  field data "notifications" = Some ns ->
  field ns "length" = Some len ->
  menu_markup ns = None ->
  notification_menu (dom p) = Some menu ->
  let p' := exec loadNotifications h p in
  notification_menu (dom p') = Some menu /\
  notification_badge (dom p')
  = option_map (fun _ => show_count len) (notification_badge (dom p)) /\
  errors p' = (errors p ++ ["Error loading notifications:"])%list.
Proof.
  intros Hr Hns Hlen Hm Hmenu p'. subst p'.
  unfold loadNotifications, displayNotifications. unfold_eff. cbn.
  rewrite Hr. cbn. rewrite Hns. cbn. rewrite Hlen. cbn.
  destruct (notification_badge (dom p)) eqn:Eb; cbn; rewrite Hmenu; cbn;
    rewrite Hm; cbn; rewrite ?Eb, ?Hmenu; auto.
Qed.

Lemma unrenderable_snapshot_updates_badge_only_witness :
  let h := Sample.always 0
             (Json (Obj [("notifications", Arr [Sample.ready; Null])])) true in
  let p' := exec loadNotifications h Sample.cart_page in
  notification_menu (dom p') = Some [PageMarkup "menu"] /\
  notification_badge (dom p') = Some (Badge "2" "inline").
Proof.
  intros h p'.
  destruct (unrenderable_snapshot_updates_badge_only h Sample.cart_page
              (Obj [("notifications", Arr [Sample.ready; Null])])
              (Arr [Sample.ready; Null]) (Num 2) [PageMarkup "menu"]
              eq_refl eq_refl eq_refl eq_refl eq_refl) as [Hmenu [Hbadge _]].
  split; [exact Hmenu | exact Hbadge].
Defined.

(** X11: after a refresh that fetched an array of notifications (none of
    them [null]) on a page that has the badge and the menu, the two agree:
    the badge shows the number of entries and is visible exactly when there
    is at least one, and the menu holds the header followed by one row per
    entry, or by the line [No new notifications] when there is none. *)
Theorem badge_counts_the_rows
        (h : host) (p : page) (data : value) (l : list value)
        (b : badge) (menu : list fragment) :
  respond h notifications_request = Json data ->
  field data "notifications" = Some (Arr l) ->
  forallb defined l = true ->
  notification_badge (dom p) = Some b ->
  notification_menu (dom p) = Some menu ->
  let p' := exec loadNotifications h p in
  notification_badge (dom p')
  = Some (Badge (dec (Z.of_nat (List.length l)))
                (if Nat.eqb (List.length l) 0 then "none" else "inline")) /\
  exists rows,
    notification_menu (dom p') = Some (MenuHeader :: rows) /\
    (l = [] -> rows = [MenuEmpty]) /\
    (l <> [] -> traverse notification_row l = Some rows /\
                List.length rows = List.length l).
Proof.
  intros Hr Hns Hdef Hb Hmenu p'. subst p'.
  destruct (traverse_defined notification_row defined l
              notification_row_defined Hdef) as [rows Hrows].
  assert (menu_markup (Arr l)
          = Some (MenuHeader :: match l with [] => [MenuEmpty] | _ => rows end))
    as Hm.
  { unfold menu_markup. destruct l as [|x l]; [reflexivity|].
    cbn [field String.eqb Ascii.eqb Bool.eqb List.length is_zero Z.of_nat].
    cbn [render_rows]. now rewrite Hrows. }
  pose proof (loadNotifications_replaces h p data (Arr l)
                (Num (Z.of_nat (List.length l))) _ Hr Hns eq_refl Hm) as Hdom.
  rewrite Hdom. unfold replace_notifications. rewrite Hb. cbn. rewrite Hmenu. cbn.
  split.
  - unfold show_count. f_equal. f_equal. destruct l; reflexivity.
  - eexists. split; [reflexivity|]. split.
    + intros ->. reflexivity.
    + intros Hne. destruct l as [|x l]; [congruence|].
      split; [exact Hrows | now apply traverse_length in Hrows].
Qed.

Lemma badge_counts_the_rows_witness :
  let p' := exec loadNotifications (Sample.always 0 Sample.inbox true)
                 Sample.cart_page in
  notification_badge (dom p') = Some (Badge "2" "inline").
Proof.
  exact (proj1 (badge_counts_the_rows (Sample.always 0 Sample.inbox true)
                  Sample.cart_page
                  (Obj [("notifications", Arr [Sample.ready; Sample.ready])])
                  [Sample.ready; Sample.ready]
                  (Badge "1" "inline") [PageMarkup "menu"]
                  eq_refl eq_refl eq_refl eq_refl eq_refl)).
Defined.

(** *** Polling while the network is down *)

(** X12: a refresh (at start-up or on a tick of the interval) during which
    every request fails leaves the notifications and the statistics as they
    were, but resets the cart badge, when the page has one, to a hidden 0;
    it issues its two or three requests all the same, logs one line per
    failed request and shows no toast. *)
Theorem refresh_during_outage (h : host) (p : page) :
  (forall r, respond h r = NetworkError) ->
  loadInitialData h p = (Some tt, after_outage h p) /\
  toasts_of (after_outage h p) = toasts_of p /\
  notification_badge (dom (after_outage h p)) = notification_badge (dom p) /\
  notification_menu (dom (after_outage h p)) = notification_menu (dom p) /\
  stats (dom (after_outage h p)) = stats (dom p).
Proof.
  intros Hdown. split.
  - unfold loadInitialData. unfold bind at 1.
    rewrite updateCartBadge_run.
    change (is_null (count_or_default Undefined)) with true.
    unfold after_outage, has_cart_badge.
    unfold loadNotifications, updateOrderStats, polled_count, poll_log.
    unfold_eff. rewrite ?Hdown.
    destruct (cart_badge (dom p)); cbn; rewrite ?Hdown; cbn;
      rewrite <- ?app_assoc; reflexivity.
  - unfold after_outage, toasts_of. cbn.
    destruct (has_cart_badge p); auto.
Qed.

Lemma refresh_during_outage_witness :
  cart_badge (dom (exec loadInitialData (Sample.always 0 NetworkError true)
                        Sample.cart_page))
  = Some (Badge "0" "none").
Proof.
  destruct (refresh_during_outage (Sample.always 0 NetworkError true)
              Sample.cart_page (fun _ => eq_refl)) as [Hrun _].
  unfold exec. rewrite Hrun. reflexivity.
Defined.

(** *** Keystrokes that are far apart *)

Lemma separated_pending (w : world) (events : list (Z * string)) (t : Z)
      (text : string) (p : page) :
  separated ((t, text) :: events) ->
  settle w (fold_left (on_input w) events
              (SearchBox (with_dom (set_menu_search (Some text)) p)
                         (Some (t + 300))))
  = SearchBox (fold_left (search_after w) ((t, text) :: events) p) None.
Proof.
  revert t text p. induction events as [|[t2 text2] events IH];
    intros t text p Hs.
  - reflexivity.
  - destruct Hs as [Hgap Hrest].
    cbn [fold_left]. unfold on_input at 2. unfold run_due. cbn [searchTimeout].
    assert ((t + 300 <=? t2) = true) as -> by (apply Z.leb_le; lia).
    cbn [box_page].
    rewrite (IH t2 text2 _ Hrest). reflexivity.
Qed.

(** X14: keystrokes that are each more than 300 ms after the previous one
    are not merged: every one of them gets its own call of [searchMenu],
    300 ms after it, with the text it left in the field, in order; no
    timeout is left pending. *)
Theorem separated_keystrokes_search_each
        (w : world) (p : page) (events : list (Z * string)) :
  separated events ->
  type_in w events (SearchBox p None)
  = SearchBox (fold_left (search_after w) events p) None.
Proof.
  intros Hs. unfold type_in. destruct events as [|[t text] events].
  - reflexivity.
  - cbn [fold_left]. unfold on_input at 2. cbn [run_due searchTimeout box_page].
    exact (separated_pending w events t text p Hs).
Qed.

Lemma separated_keystrokes_search_each_witness :
  map fst (requests (box_page (type_in (Sample.steady Sample.added)
                                       [(0, "ri"); (400, "rice")]
                                       (SearchBox Sample.cart_page None))))
  = [300; 700].
Proof.
  rewrite (separated_keystrokes_search_each (Sample.steady Sample.added)
             Sample.cart_page [(0, "ri"); (400, "rice")]).
  - reflexivity.
  - cbn. lia.
Defined.

(** *** Clicks and changes *)

(** X15: an event whose target carries none of the classes the listeners
    of its type look for is ignored: the page is unchanged, no request is
    issued and the default action is not prevented.  That covers a click
    that lands on the icon inside a result row's button (the listeners test
    the target itself, not its ancestors), and a [change] on anything but an
    order-status select. *)
Theorem unhandled_event_is_ignored
        (type : event_type) (target : node) (h : host) (p : page) :
  (forall c, In c (handled_classes type) -> matches target c = false) ->
  dispatch setupEventListeners type target h p = (Some false, p).
Proof.
  intros H. destruct type; cbn in H;
    cbn [dispatch setupEventListeners setupCartListeners setupOrderListeners
         app same_type];
    unfold bind, ret; rewrite ?H by auto 10; reflexivity.
Qed.

Lemma unhandled_event_is_ignored_witness :
  dispatch setupEventListeners Click row_icon
           (Sample.always 0 Sample.added true) Sample.cart_page
  = (Some false, Sample.cart_page).
Proof.
  apply (unhandled_event_is_ignored Click row_icon).
  intros c Hc. cbn in Hc.
  repeat (destruct Hc as [<- | Hc]; [reflexivity|]). destruct Hc.
Defined.

(** X16: a click on an element whose only handled class is
    [add-to-cart-btn] prevents the default action and runs [addToCart] with
    the element's [data-menu-item-id]; when the element has no
    [data-quantity], or an empty one, the request asks for quantity 1. *)
Theorem add_button_click (target : node) (h : host) (p : page) :
  matches target "add-to-cart-btn" = true ->
  (forall c, In c (handled_classes Click) -> c <> "add-to-cart-btn" ->
             matches target c = false) ->
  let id := dataset target "menuItemId" in
  let quantity := or_else (dataset target "quantity") (Num 1) in
  dispatch setupEventListeners Click target h p
  = (Some true, exec (addToCart id quantity) h p) /\
  (attribute "quantity" (node_dataset target) = None \/
   attribute "quantity" (node_dataset target) = Some EmptyString ->
   exists later,
     requests (exec (addToCart id quantity) h p)
     = (requests p
          ++ (now h, Request POST "/orders/api/cart/add/" []
                       (json_headers (csrf_token (dom p)))
                       (Some (json_object [("menu_item_id", id);
                                           ("quantity", Num 1)])))
          :: later)%list).
Proof.
  intros Hadd Hother id quantity. subst id quantity. split.
  - cbn [dispatch setupEventListeners setupCartListeners setupOrderListeners
         app same_type].
    unfold bind, ret, spawn, exec. rewrite Hadd.
    rewrite !Hother by (cbn; auto 10 || discriminate). reflexivity.
  - intros Hq.
    assert (or_else (dataset target "quantity") (Num 1) = Num 1) as ->
      by (unfold dataset; destruct Hq as [-> | ->]; reflexivity).
    destruct (perform_shape (AddToCart (dataset target "menuItemId") (Num 1)) h p)
      as [d [e [extra [Hrun _]]]].
    cbn [perform] in Hrun. unfold exec. rewrite Hrun. cbn [snd requests].
    exists extra. reflexivity.
Qed.

Lemma add_button_click_witness :
  map snd (requests (snd (dispatch setupEventListeners Click (row_button "4")
                                   (Sample.always 0 Sample.added true)
                                   Sample.cart_page)))
  = [Request POST "/orders/api/cart/add/" []
       [("Content-Type", "application/json"); ("X-CSRFToken", "tok")]
       (Some (Obj [("menu_item_id", Str "4"); ("quantity", Num 1)]))].
Proof.
  destruct (add_button_click (row_button "4") (Sample.always 0 Sample.added true)
              Sample.cart_page eq_refl) as [Hclick _].
  - intros c Hc Hne. cbn in Hc.
    repeat (destruct Hc as [<- | Hc]; [try reflexivity; congruence|]).
    destruct Hc.
  - rewrite Hclick. reflexivity.
Defined.

(** *** Accepted cart mutations *)

Lemma set_first_text_twice (key text : string) (l : list (string * string)) :
  set_first_text key text (set_first_text key text l) = set_first_text key text l.
Proof.
  induction l as [|[k old] l IH]; cbn; [reflexivity|].
  destruct (String.eqb k key) eqn:E; cbn; rewrite E; [reflexivity|].
  now rewrite IH.
Qed.

(** The document an accepted [updateCartQuantity] leaves when its selector
    is one [querySelector] takes. *)
Lemma accepted_update_dom (id : value) (action : string) (data : value)
      (h : host) (p : page) :
  breaks_selector (UpdateCartQuantity id action) = false ->
  dom (accepted_page (UpdateCartQuantity id action) data h p)
  = total_updated (member data "cart_total")
      (let d := on_selected (attribute_selector (to_string id))
                  (fun key d =>
                     set_quantities
                       (set_first_text key
                          (text_content (member data "new_quantity"))
                          (quantities d)) d)
                  (dom p) in
       match cart_badge (dom p) with
       | None => d
       | Some _ =>
           set_cart_badge
             (Some (show_count
                      (if is_null (count_or_default (member data "cart_count"))
                       then polled_count h
                       else count_or_default (member data "cart_count")))) d
       end).
Proof.
  intros Hsel. unfold accepted_page. rewrite Hsel. cbv zeta.
  unfold with_dom, badge_updated. cbn [dom].
  rewrite (on_selected_view cart_badge) by reflexivity.
  destruct (cart_badge (dom p)); [|reflexivity].
  destruct (is_null (count_or_default (member data "cart_count"))); reflexivity.
Qed.

(** X17: an accepted quantity update is idempotent on the document, for an
    id whose selector [querySelector] takes: applying the same accepted
    answer a second time leaves every element as the first application left
    it (no toast is involved on this path).  For an id that makes the
    selector malformed it is not: each application adds an error toast. *)
Theorem accepted_quantity_update_is_idempotent
        (id : value) (action : string) (h : host) (p : page) :
  let op := UpdateCartQuantity id action in
  breaks_selector op = false ->
  failed (respond h (request_of op p)) = false ->
  dom (exec (perform op) h (exec (perform op) h p))
  = dom (exec (perform op) h p).
Proof.
  intros op Hsel Hf. subst op.
  destruct (not_failed_accepted _ Hf) as [data Hj].
  unfold exec.
  rewrite (accepted_mutation h p (UpdateCartQuantity id action) data
             eq_refl eq_refl Hj). cbn [snd].
  assert (request_of (UpdateCartQuantity id action)
                     (accepted_page (UpdateCartQuantity id action) data h p)
          = request_of (UpdateCartQuantity id action) p) as Hreq.
  { cbn [request_of]. f_equal. rewrite accepted_update_dom by exact Hsel.
    rewrite total_updated_view by reflexivity. cbv zeta.
    destruct (cart_badge (dom p));
      destruct (attribute_selector (to_string id)); reflexivity. }
  rewrite (accepted_mutation h _ (UpdateCartQuantity id action) data
             eq_refl eq_refl) by (rewrite Hreq; exact Hj).
  cbn [snd]. rewrite (accepted_update_dom id action data h
                        (accepted_page (UpdateCartQuantity id action) data h p))
    by exact Hsel.
  rewrite accepted_update_dom by exact Hsel. cbv zeta. unfold total_updated.
  destruct (attribute_selector (to_string id)) as [|key| |];
    cbn [on_selected];
    destruct (cart_badge (dom p)) eqn:Eb, (cart_total (dom p)) eqn:Et;
    repeat (progress (cbn; rewrite ?Eb, ?Et));
    rewrite ?set_first_text_twice; reflexivity.
Qed.

Lemma accepted_quantity_update_is_idempotent_witness :
  let h := Sample.always 3 (Json (Obj [("success", Bool true);
                                       ("new_quantity", Num 2);
                                       ("cart_count", Num 3);
                                       ("cart_total", Num 5000)])) true in
  let once := exec (updateCartQuantity (Str "7") "increase") h Sample.cart_page in
  dom (exec (updateCartQuantity (Str "7") "increase") h once) = dom once.
Proof.
  intros h once.
  exact (accepted_quantity_update_is_idempotent (Str "7") "increase" h
           Sample.cart_page eq_refl eq_refl).
Defined.

(** With an id that ends in a double quote the second application adds a
    second error toast. *)
Example malformed_update_is_not_idempotent :
  let op := UpdateCartQuantity Sample.quoted_id "increase" in
  let h := Sample.always 40 Sample.added true in
  List.length (toasts_of (exec (perform op) h (exec (perform op) h Sample.cart_page)))
  = 2%nat.
Proof. reflexivity. Qed.








(** *** The selectors built around an id *)

Lemma preprocess_plain (l : list ascii) (tail : list ascii) :
  forallb (fun c => negb (existsb (Nat.eqb (nat_of_ascii c)) [34; 92; 10; 13; 12; 0]%nat)) l
  = true ->
  preprocess (l ++ tail)
  = (map (fun c => Z.of_nat (nat_of_ascii c)) l ++ preprocess tail)%list.
Proof.
  induction l as [|c l IH]; intros H; [reflexivity|].
  cbn [forallb] in H. apply andb_true_iff in H. destruct H as [Hc Hl].
  cbn [app map preprocess]. cbv zeta.
  cbn [existsb] in Hc. rewrite !negb_orb in Hc.
  repeat (apply andb_true_iff in Hc; destruct Hc as [? Hc]).
  repeat match goal with
         | H : negb (Nat.eqb _ _) = true |- _ =>
             apply negb_true_iff, Nat.eqb_neq in H
         end.
  assert ((Z.of_nat (nat_of_ascii c) =? 13) = false) as -> by (apply Z.eqb_neq; lia).
  assert ((Z.of_nat (nat_of_ascii c) =? 12) = false) as -> by (apply Z.eqb_neq; lia).
  assert ((Z.of_nat (nat_of_ascii c) =? 0) = false) as -> by (apply Z.eqb_neq; lia).
  now rewrite (IH Hl).
Qed.

Lemma consume_string_plain (l : list ascii) (acc tail : list Z) :
  forallb (fun c => negb (existsb (Nat.eqb (nat_of_ascii c)) [34; 92; 10; 13; 12; 0]%nat)) l
  = true ->
  consume_string InString acc (map (fun c => Z.of_nat (nat_of_ascii c)) l ++ tail)
  = consume_string InString (acc ++ map (fun c => Z.of_nat (nat_of_ascii c)) l) tail.
Proof.
  revert acc. induction l as [|c l IH]; intros acc H.
  - cbn. now rewrite app_nil_r.
  - cbn [forallb] in H. apply andb_true_iff in H. destruct H as [Hc Hl].
    cbn [map app consume_string].
    cbn [existsb] in Hc. rewrite !negb_orb in Hc.
    repeat (apply andb_true_iff in Hc; destruct Hc as [? Hc]).
    repeat match goal with
           | H : negb (Nat.eqb _ _) = true |- _ =>
               apply negb_true_iff, Nat.eqb_neq in H
           end.
    assert ((Z.of_nat (nat_of_ascii c) =? 34) = false) as -> by (apply Z.eqb_neq; lia).
    assert ((Z.of_nat (nat_of_ascii c) =? 10) = false) as -> by (apply Z.eqb_neq; lia).
    assert ((Z.of_nat (nat_of_ascii c) =? 92) = false) as -> by (apply Z.eqb_neq; lia).
    rewrite (IH _ Hl), <- app_assoc. reflexivity.
Qed.

Lemma selected_codes (l : list ascii) :
  selected (map (fun c => Z.of_nat (nat_of_ascii c)) l)
  = Selects (string_of_list_ascii l).
Proof.
  unfold selected.
  assert (forallb (fun c => c <? 256) (map (fun c => Z.of_nat (nat_of_ascii c)) l)
          = true) as ->.
  { apply forallb_forall. intros x Hx. apply in_map_iff in Hx.
    destruct Hx as [c [<- _]]. apply Z.ltb_lt.
    pose proof (nat_ascii_bounded c). lia. }
  f_equal. f_equal. rewrite map_map.
  induction l as [|c l IH]; [reflexivity|].
  cbn [map]. now rewrite Nat2Z.id, ascii_nat_embedding, IH.
Qed.

(** X22: what the selector built around an id looks for.  An id with no
    double quote, backslash, line break or NUL is pasted into a well-formed
    selector that looks for exactly that id; the same id followed by a
    double quote makes the selector malformed, so that [querySelector]
    throws. *)
Theorem plain_id_selects_itself (id : string) :
  plain_id id = true ->
  attribute_selector id = Selects id /\
  attribute_selector (id ++ Sample.quote) = Malformed.
Proof.
  unfold plain_id, attribute_selector. intros H. split.
  - rewrite (preprocess_plain _ _ H).
    rewrite (consume_string_plain _ [] _ H).
    change (preprocess [ascii_of_nat 34; "]"%char]) with [34; 93].
    cbn [consume_string app]. change (34 =? 34) with true. cbv iota.
    rewrite selected_codes. now rewrite string_of_list_ascii_of_string.
  - assert (list_ascii_of_string (id ++ Sample.quote)
            = (list_ascii_of_string id ++ [ascii_of_nat 34])%list) as ->.
    { clear H. induction id as [|c id IH]; [reflexivity|].
      cbn [String.append list_ascii_of_string app]. now rewrite IH. }
    rewrite <- app_assoc. rewrite (preprocess_plain _ _ H).
    rewrite (consume_string_plain _ [] _ H).
    change (preprocess ([ascii_of_nat 34] ++ [ascii_of_nat 34; "]"%char]))
      with [34; 34; 93].
    cbn [consume_string app]. reflexivity.
Qed.

Lemma plain_id_selects_itself_witness :
  attribute_selector "7" = Selects "7" /\
  attribute_selector (String "7"%char Sample.quote) = Malformed.
Proof. exact (plain_id_selects_itself "7" eq_refl). Defined.

(** An id can also rewrite the selector: a quote and a bracket, then an
    attribute test of its own.  And an escape in the id is decoded: the
    white space that ends a hexadecimal escape belongs to it. *)
Example rewriting_id :
  attribute_selector
    ("7" ++ Sample.quote ++ "][data-x=" ++ Sample.quote ++ "1")
  = Rewritten.
Proof. reflexivity. Qed.

Example escaped_id :
  attribute_selector "\37" = Selects "7" /\
  attribute_selector "caf\e9 au lait" = Selects ("caf" ++ String (ascii_of_nat 233) "au lait") /\
  attribute_selector "\2603" = SelectsNothing.
Proof. repeat split; reflexivity. Qed.

(** *** The legacy helper *)

(** X21: [fetchNotifications] never touches the document and never
    throws: it issues one request for the notifications and, when the
    request fails, the body is not JSON or the body is [null], writes
    one line to the console. *)
Theorem fetchNotifications_only_logs (h : host) (p : page) :
  exists log,
    fetchNotifications h p =
      (Some tt,
       Page (dom p) (requests p ++ [(now h, notifications_request)])
            (errors p ++ log) (reloads p)) /\
    log = match respond h notifications_request with
          | Json data => if defined data then []
                         else ["Error fetching notifications:"]
          | NetworkError | NotJson => ["Error fetching notifications:"]
          end.
Proof.
  unfold fetchNotifications. unfold_eff. cbn.
  destruct (respond h notifications_request) as [| |data]; cbn.
  1,2: eexists; split; reflexivity.
  destruct data; cbn; eexists; (split; [|reflexivity]);
    rewrite ?app_nil_r; reflexivity.
Qed.
